(** * NJ medical fee schedule scraper: a shallow embedding

    The repository is a linear pipeline of four Python modules:

    - [app/scraper.py]        drives a headless browser to download a spreadsheet;
    - [app/data_processor.py] projects, renames and filters the spreadsheet (pandas);
    - [app/database.py]       inserts the rows into a remote table (Supabase);
    - [app/main.py]           exposes the pipeline through FastAPI endpoints.

    Python functions that can raise return a [result]; code that talks to the
    browser, the file system or the remote store runs in a state-and-error
    monad [M] over a record [Sys] that holds the external world and the
    resources the process owns.  Calls to [logger] are left out: they change
    neither the control flow nor any value the program computes. *)

From Stdlib Require Import ZArith Ascii String List Bool Lia Sorted.
From stdpp Require Import base option list strings gmap.

Local Open Scope string_scope.
Local Open Scope Z_scope.
Set Warnings "-register-all".

(** ** Python values, exceptions and results *)

Module Py.

(** The classes of [Exception] the program names or meets. *)
Inductive exn_class :=
| ValueError
| KeyError
| OtherError (cls : string).

(** A string as Python builds it. What the program writes itself is a
    literal. A text that a library formats from its own objects is kept as
    the formatting it applies: the [repr] of a string, the [str] of a list
    of strings (its items shown by [repr]), the [str] of a pandas [Index]
    (whose layout depends on the display width). *)
Inductive text :=
| Lit (s : string)
| Cat (t1 t2 : text)
| ReprStr (t : text)
| ReprList (labels : list string)
| ReprIndex (labels : list string).

Coercion Lit : string >-> text.

(** An exception: its class and the text [str(e)] yields. *)
Record exn := Exn { exn_cls : exn_class; exn_text : text }.

Definition str (e : exn) : text := exn_text e.

(** The outcome of a call: a value, or a raised [Exception]. *)
Inductive result (A : Type) :=
| Ok (a : A)
| Raise (e : exn).
Arguments Ok {A} a.
Arguments Raise {A} e.

Definition is_raise {A} (r : result A) : bool :=
  match r with Ok _ => false | Raise _ => true end.

Definition rbind {A B} (r : result A) (k : A -> result B) : result B :=
  match r with Ok a => k a | Raise e => Raise e end.

(** Values that end up in return dictionaries and JSON bodies. A [dict]
    literal is an association list in the order it is written. *)
Inductive pyval :=
| PNone
| PNaN
| PInt (z : Z)
| PStr (s : text)
| PList (l : list pyval)
| PDict (d : list (string * pyval)).

(** [d[k]] on a dictionary literal; [None] for a missing key or a value
    that is no dictionary. *)
Fixpoint assoc (k : string) (d : list (string * pyval)) : option pyval :=
  match d with
  | [] => None
  | (k', v) :: d' => if String.eqb k k' then Some v else assoc k d'
  end.

Definition field (k : string) (v : pyval) : option pyval :=
  match v with PDict d => assoc k d | _ => None end.

(** [d[k] = v]: the value of a key the dictionary has is replaced where it
    stands; a new key goes to the end. *)
Fixpoint dict_set (k : string) (v : pyval) (d : list (string * pyval))
  : list (string * pyval) :=
  match d with
  | [] => [(k, v)]
  | (k', v') :: d' =>
      if String.eqb k' k then (k', v) :: d' else (k', v') :: dict_set k v d'
  end.

(** [dict(items)] *)
Definition dict_of (items : list (string * pyval)) : list (string * pyval) :=
  foldl (fun d kv => dict_set kv.1 kv.2 d) [] items.

(** [len(x)] as a Python integer. *)
Definition len {A} (l : list A) : Z := Z.of_nat (length l).

End Py.
Export Py.

(** ** The part of pandas the cleaner uses *)

Module Pandas.

(** A spreadsheet cell as [read_excel] delivers it: a missing value
    ([NaN]/[None], which [isna] recognises), a text or a number. *)
Inductive cell :=
| Null
| Str (s : string)
| Num (n : Z).

Definition isna (c : cell) : bool :=
  match c with Null => true | _ => false end.

Definition notna (c : cell) : bool := negb (isna c).

(** A frame: column labels, and the rows, each with its index label and
    one cell per column (by position). *)
Record DataFrame := Frame {
  columns : list string;
  rows : list (Z * list cell)
}.

Definition index (df : DataFrame) : list Z := (rows df).*1.
Definition values (df : DataFrame) : list (list cell) := (rows df).*2.

(** Positions of the columns labelled [k], left to right. A label may
    occur more than once in a frame. *)
Fixpoint positions_from (i : nat) (k : string) (cols : list string) : list nat :=
  match cols with
  | [] => []
  | c :: cols' =>
      if String.eqb c k then i :: positions_from (S i) k cols'
      else positions_from (S i) k cols'
  end.

Definition positions (k : string) (cols : list string) : list nat :=
  positions_from 0 k cols.

(** [Index.get_indexer_for]: for each key the positions of every column
    that carries it, in the order of the keys; the keys that label no
    column are reported. *)
Fixpoint get_indexer_for (keys cols : list string) : list nat * list string :=
  match keys with
  | [] => ([], [])
  | k :: keys' =>
      let '(ix, missing) := get_indexer_for keys' cols in
      match positions k cols with
      | [] => (ix, k :: missing)
      | ps => ((ps ++ ix)%list, missing)
      end
  end.

(** The labels of a list, each once, in the order of their first
    occurrence ([Index.unique]). *)
Fixpoint unique_from (seen l : list string) : list string :=
  match l with
  | [] => []
  | x :: l' =>
      if existsb (String.eqb x) seen then unique_from seen l'
      else x :: unique_from (x :: seen) l'
  end.

Definition unique (l : list string) : list string := unique_from [] l.

(** The [str] of the [KeyError] that [df[keys]] raises. When no key labels a
    column the message is f"None of [{Index(keys)}] are in the [columns]";
    otherwise it is f"{not_found} not in index", [not_found] being the list
    of the missing labels, each once. The [str] of a [KeyError] is the
    [repr] of its message. *)
Definition not_in_index (keys missing : list string) : text :=
  if (length missing =? length keys)%nat
  then ReprStr (Cat "None of [" (Cat (ReprIndex keys) "] are in the [columns]"))
  else ReprStr (Cat (ReprList (unique missing)) " not in index").

(** The [str] of the [KeyError] that [dropna(subset=...)] raises: the
    exception carries the list of the missing labels. *)
Definition missing_subset (missing : list string) : text := ReprList missing.

Definition take_cells (ix : list nat) (r : list cell) : list cell :=
  map (fun i => nth i r Null) ix.

Definition take_labels (ix : list nat) (cols : list string) : list string :=
  map (fun i => nth i cols "") ix.

(** [DataFrame.take(indexer, axis=1)] *)
Definition take_columns (ix : list nat) (df : DataFrame) : DataFrame :=
  {| columns := take_labels ix (columns df);
     rows := map (fun r => (r.1, take_cells ix r.2)) (rows df) |}.

(** [df[keys]] for a list of labels: every column that carries a requested
    label is taken, so a label that occurs twice in the frame yields two
    columns; a label that occurs nowhere raises [KeyError]. The result is a
    fresh frame, which [.copy()] copies once more. *)
Definition getitem (df : DataFrame) (keys : list string) : result DataFrame :=
  match get_indexer_for keys (columns df) with
  | (ix, []) => Ok (take_columns ix df)
  | (_, missing) => Raise (Exn KeyError (not_in_index keys missing))
  end.

(** [df.rename(columns=mapper)]: a label that is a key of the mapper is
    replaced, any other is kept. *)
Fixpoint lookup_label (mapper : list (string * string)) (c : string) : string :=
  match mapper with
  | [] => c
  | (k, v) :: mapper' => if String.eqb c k then v else lookup_label mapper' c
  end.

Definition rename (mapper : list (string * string)) (df : DataFrame) : DataFrame :=
  {| columns := map (lookup_label mapper) (columns df); rows := rows df |}.

(** [df.dropna(subset=labels)] (how='any'): a row stays when none of its
    cells under the labels is missing. *)
Definition dropna_subset (subset : list string) (df : DataFrame) : result DataFrame :=
  match get_indexer_for subset (columns df) with
  | (ix, []) =>
      Ok {| columns := columns df;
            rows := List.filter (fun r => forallb notna (take_cells ix r.2)) (rows df) |}
  | (_, missing) => Raise (Exn KeyError (missing_subset missing))
  end.

(** [df.dropna(how='all')]: a row stays when some cell of it is present. *)
Definition dropna_all (df : DataFrame) : DataFrame :=
  {| columns := columns df;
     rows := List.filter (fun r => existsb notna r.2) (rows df) |}.

(** [range(n)] as index labels. *)
Definition range_index (n : nat) : list Z := map Z.of_nat (seq 0 n).

(** [df.reset_index(drop=True)] *)
Definition reset_index (df : DataFrame) : DataFrame :=
  {| columns := columns df;
     rows := zip (range_index (length (rows df))) (values df) |}.

(** [df.to_dict('records')]: one dictionary per row, filled column by
    column, so that a later column overwrites an earlier one of the same
    label. *)
Definition row_to_dict (cols : list string) (r : list cell) : gmap string cell :=
  foldl (fun d kv => <[kv.1 := kv.2]> d) ∅ (zip cols r).

Definition to_dict_records (df : DataFrame) : list (gmap string cell) :=
  map (row_to_dict (columns df)) (values df).

(** [df.head(n)] *)
Definition head (n : nat) (df : DataFrame) : DataFrame :=
  {| columns := columns df; rows := take n (rows df) |}.

End Pandas.
Export Pandas.

(** ** app/data_processor.py *)

Module DataProcessor.

Definition COLUMNS_TO_KEEP : list string :=
  [ "CPT* HCPS";
    "Description";
    "Physicians' Fees      North";
    "ASC Fees North" ].

Definition COLUMN_RENAME : list (string * string) :=
  [ ("CPT* HCPS", "cpt_hcps");
    ("Description", "description");
    ("Physicians' Fees      North", "physicians_fees_north");
    ("ASC Fees North", "asc_fees_north") ].

(** [DataProcessor.clean_data] *)
Definition clean_data (df : DataFrame) : result DataFrame :=
  rbind (getitem df COLUMNS_TO_KEEP) (fun df_cleaned =>
  let df_cleaned := rename COLUMN_RENAME df_cleaned in
  rbind (dropna_subset ["cpt_hcps"] df_cleaned) (fun df_cleaned =>
  let df_cleaned := dropna_all df_cleaned in
  let df_cleaned := reset_index df_cleaned in
  Ok df_cleaned)).

End DataProcessor.

(** ** The process and the world around it *)

Module Runtime.

Definition Path := string.

(** A row as it is sent to the store: a dictionary from column label to
    cell. *)
Definition record := gmap string cell.

(** What [.insert(...)] is given: one dictionary, or a list of them. *)
Inductive payload :=
| Row (r : record)
| Rows (rs : list record).

(** The store's answer to [.execute()]. *)
Record APIResponse := { data : list record; count : option Z }.

(** Every call that leaves the program, in the form it is made. *)
Inductive call :=
| SyncPlaywrightStart
| ChromiumLaunch (headless : bool)
| NewContext (accept_downloads : bool)
| NewPage
| SetDefaultTimeout (ms : Z)
| Goto (url wait_until : string)
| WaitFor (selector state : string) (timeout : Z)
| ExpectDownloadClick (selector : string) (timeout : Z)
| SaveAs (file_path : Path)
| ContextClose
| BrowserClose
| PlaywrightStop
| Mkdir (dir : Path)
| ReadExcel (file_path : Path)
| Unlink (file_path : Path)
| CreateClient (url key : string)
| InsertExecute (table : string) (p : payload)
| UtcNow.

(** The world outside the program, over a state [S] of its own that every
    call may read and change. A call answers with a value or raises. *)
Record World (S : Type) := {
  environ : gmap string string;
  sync_playwright_start : S -> S * result unit;
  chromium_launch : bool -> S -> S * result unit;
  new_context : S -> S * result unit;
  new_page : S -> S * result unit;
  set_default_timeout : Z -> S -> S * result unit;
  goto : string -> S -> S * result unit;
  wait_for : string -> S -> S * result unit;
  expect_download_click : string -> S -> S * result string;
  save_as : Path -> S -> S * result unit;
  context_close : S -> S * result unit;
  browser_close : S -> S * result unit;
  playwright_stop : S -> S * result unit;
  mkdir : Path -> S -> S * result unit;
  read_excel_file : Path -> S -> S * result DataFrame;
  unlink : Path -> S -> S * result unit;
  create_client : string -> string -> S -> S * result unit;
  insert_execute : string -> payload -> S -> S * result APIResponse;
  utcnow_isoformat : S -> S * string
}.
Arguments environ {S} _.
Arguments sync_playwright_start {S} _ _.
Arguments chromium_launch {S} _ _ _.
Arguments new_context {S} _ _.
Arguments new_page {S} _ _.
Arguments set_default_timeout {S} _ _ _.
Arguments goto {S} _ _ _.
Arguments wait_for {S} _ _ _.
Arguments expect_download_click {S} _ _ _.
Arguments save_as {S} _ _ _.
Arguments context_close {S} _ _.
Arguments browser_close {S} _ _.
Arguments playwright_stop {S} _ _.
Arguments mkdir {S} _ _ _.
Arguments read_excel_file {S} _ _ _.
Arguments unlink {S} _ _ _.
Arguments create_client {S} _ _ _ _.
Arguments insert_execute {S} _ _ _ _.
Arguments utcnow_isoformat {S} _ _.

(** The browser resources the process holds. *)
Inductive resource := Playwright | Browser | BrowserContext.

Definition resource_eqb (r1 r2 : resource) : bool :=
  match r1, r2 with
  | Playwright, Playwright | Browser, Browser | BrowserContext, BrowserContext => true
  | _, _ => false
  end.

(** A list of resources without the first one of kind [r]. *)
Fixpoint drop_first (r : resource) (l : list resource) : list resource :=
  match l with
  | [] => []
  | r' :: l' => if resource_eqb r' r then l' else r' :: drop_first r l'
  end.

(** The same, for the last one of kind [r]. *)
Definition drop_last (r : resource) (l : list resource) : list resource :=
  rev (drop_first r (rev l)).

(** The running system: the state of the world, the resources held (in
    the order they were acquired) and the calls made so far. *)
Record Sys (S : Type) := {
  ext : S;
  held : list resource;
  trace : list call
}.
Arguments ext {S} _.
Arguments held {S} _.
Arguments trace {S} _.

(** Computations that read and change the system and may raise. *)
Definition M (S A : Type) : Type := Sys S -> Sys S * result A.

Section Monad.
Context {S : Type}.

Definition ret {A} (a : A) : M S A := fun sys => (sys, Ok a).

Definition raise {A} (e : exn) : M S A := fun sys => (sys, Raise e).

Definition bind {A B} (m : M S A) (k : A -> M S B) : M S B :=
  fun sys =>
    match m sys with
    | (sys', Ok a) => k a sys'
    | (sys', Raise e) => (sys', Raise e)
    end.

(** [try: m  except Exception as e: h e] *)
Definition try_except {A} (m : M S A) (h : exn -> M S A) : M S A :=
  fun sys =>
    match m sys with
    | (sys', Ok a) => (sys', Ok a)
    | (sys', Raise e) => h e sys'
    end.

(** [try: m  finally: fin]. The clean-up runs whatever [m] did; an
    exception of the clean-up replaces the outcome of [m]. *)
Definition try_finally {A} (m : M S A) (fin : M S unit) : M S A :=
  fun sys =>
    match m sys with
    | (sys', r) =>
        match fin sys' with
        | (sys'', Ok _) => (sys'', r)
        | (sys'', Raise e) => (sys'', Raise e)
        end
    end.

(** An external call: the world answers and the call is recorded. *)
Definition external {A} (c : call) (op : S -> S * result A) : M S A :=
  fun sys =>
    match op (ext sys) with
    | (s', r) =>
        ({| ext := s'; held := held sys; trace := (trace sys ++ [c])%list |}, r)
    end.

(** A successful acquisition puts the resource among those held. *)
Definition acquire (r : resource) : M S unit :=
  fun sys =>
    ({| ext := ext sys; held := (held sys ++ [r])%list; trace := trace sys |}, Ok tt).

(** A successful release takes out the resource of that kind that was
    acquired last, and leaves any other in place. *)
Definition release (r : resource) : M S unit :=
  fun sys =>
    ({| ext := ext sys;
        held := drop_last r (held sys);
        trace := trace sys |}, Ok tt).

End Monad.

Declare Scope py_scope.
Delimit Scope py_scope with py.
Notation "x <- m ;; k" := (bind m (fun x => k))
  (at level 100, m at next level, right associativity) : py_scope.
Notation "m ;;; k" := (bind m (fun _ => k))
  (at level 100, right associativity) : py_scope.

End Runtime.
Export Runtime.

(** ** app/scraper.py *)

Module Scraper.
Section Scraper.
Context {S : Type} (W : World S).
Local Open Scope py_scope.

Record NJMedicalScraper := { download_dir : Path; url : string }.

(** The pieces of [s] between its slashes; [cur] is the piece being read. *)
Fixpoint split_slash (s cur : string) : list string :=
  match s with
  | EmptyString => [cur]
  | String c s' =>
      if Ascii.eqb c "/"%char then cur :: split_slash s' ""
      else split_slash s' (cur +:+ String c EmptyString)
  end.

(** The components [pathlib] keeps of a name: empty pieces and "." go. *)
Definition path_parts (name : string) : list string :=
  List.filter (fun c => negb (String.eqb c "") && negb (String.eqb c "."))
              (split_slash name "").

(** The root of a name: "/" when it starts with a slash, "//" when it
    starts with exactly two, none otherwise. *)
Definition path_root (name : string) : string :=
  if String.prefix "///" name then "/"
  else if String.prefix "//" name then "//"
  else if String.prefix "/" name then "/"
  else "".

Fixpoint ends_with_slash (s : string) : bool :=
  match s with
  | EmptyString => false
  | String c EmptyString => Ascii.eqb c "/"%char
  | String _ s' => ends_with_slash s'
  end.

(** [pathlib]'s [dir / name], as the [str] of the resulting path, for a
    [dir] that is itself the [str] of a path: a rooted name replaces [dir],
    a name without components leaves it, redundant slashes and "." are
    dropped. *)
Definition path_join (dir : Path) (name : string) : Path :=
  let rel := String.concat "/" (path_parts name) in
  if negb (String.eqb (path_root name) "") then path_root name +:+ rel
  else if String.eqb rel "" then dir
  else if String.eqb dir "." then rel
  else if ends_with_slash dir then dir +:+ rel
  else dir +:+ "/" +:+ rel.

(** [NJMedicalScraper.__init__] with [download_dir=None] *)
Definition init : M S NJMedicalScraper :=
  let download_dir := "downloads" in
  external (Mkdir download_dir) (mkdir W download_dir) ;;;
  ret {| download_dir := download_dir;
         url := "https://www.nj.gov/dobi/pipinfo/aicrapg.htm" |}.

(** [NJMedicalScraper.setup_browser] *)
Definition setup_browser (headless : bool) : M S unit :=
  external SyncPlaywrightStart (sync_playwright_start W) ;;;
  acquire Playwright ;;;
  external (ChromiumLaunch headless) (chromium_launch W headless) ;;;
  acquire Browser ;;;
  external (NewContext true) (new_context W) ;;;
  acquire BrowserContext ;;;
  external NewPage (new_page W) ;;;
  external (SetDefaultTimeout 60000) (set_default_timeout W 60000).

(** The [try] block of [download_excel_file]. *)
Definition download_steps (self : NJMedicalScraper) : M S Path :=
  external (Goto (url self) "networkidle") (goto W (url self)) ;;;
  let excel_link := "a[href$='ex1_130104.xls']" in
  external (WaitFor excel_link "visible" 15000) (wait_for W excel_link) ;;;
  filename <- external (ExpectDownloadClick excel_link 60000)
                       (expect_download_click W excel_link) ;;
  let file_path := path_join (download_dir self) filename in
  external (SaveAs file_path) (save_as W file_path) ;;;
  ret file_path.

(** The [finally] block of [download_excel_file]. *)
Definition cleanup : M S unit :=
  external ContextClose (context_close W) ;;;
  release BrowserContext ;;;
  external BrowserClose (browser_close W) ;;;
  release Browser ;;;
  external PlaywrightStop (playwright_stop W) ;;;
  release Playwright.

(** [NJMedicalScraper.download_excel_file] *)
Definition download_excel_file (self : NJMedicalScraper) (headless : bool) : M S Path :=
  setup_browser headless ;;;
  try_finally
    (try_except (download_steps self) (fun e => raise e))
    cleanup.

End Scraper.
End Scraper.


(** ** app/database.py *)

Module Database.
Section Database.
Context {S : Type} (W : World S).
Local Open Scope py_scope.

Record SupabaseHandler := {
  supabase_url : string;
  supabase_key : string;
  table_name : string
}.

(** [os.getenv(name)] *)
Definition getenv (name : string) : option string := environ W !! name.

(** Python's [not x] for a value that is [None] or a string. *)
Definition py_not (x : option string) : bool :=
  match x with
  | None => true
  | Some s => String.eqb s ""
  end.

(** [SupabaseHandler.__init__] *)
Definition init : M S SupabaseHandler :=
  let supabase_url := getenv "SUPABASE_URL" in
  let supabase_key := getenv "SUPABASE_KEY" in
  let table_name := "test_cleaning" in
  if py_not supabase_url || py_not supabase_key then
    raise (Exn ValueError "Missing Supabase credentials in environment variables")
  else
    let url := default "" supabase_url in
    let key := default "" supabase_key in
    external (CreateClient url key) (create_client W url key) ;;;
    ret {| supabase_url := url; supabase_key := key; table_name := table_name |}.

(** [self.client.table(self.table_name).insert(p).execute()] *)
Definition table_insert_execute (self : SupabaseHandler) (p : payload) : M S APIResponse :=
  external (InsertExecute (table_name self) p) (insert_execute W (table_name self) p).

(** [SupabaseHandler.insert_records] *)
Definition insert_records (self : SupabaseHandler) (records : list record) : M S pyval :=
  try_except
    (response <- table_insert_execute self (Rows records) ;;
     ret (PDict [ ("status", PStr "success");
                  ("records_inserted", PInt (len records));
                  ("table", PStr (table_name self)) ]))
    (fun e => raise e).

(** The counters of the one-by-one loop. *)
Record counters := {
  success_count : Z;
  failed_count : Z;
  errors : list pyval
}.

(** [enumerate(records, start)] *)
Fixpoint enumerate {A} (l : list A) (start : Z) : list (Z * A) :=
  match l with
  | [] => []
  | x :: l' => (start, x) :: enumerate l' (start + 1)
  end.

(** One turn of the [for] loop: the insert of one record in its own
    [try]/[except]. *)
Definition insert_one (self : SupabaseHandler) (c : counters) (idx : Z) (r : record)
  : M S counters :=
  try_except
    (table_insert_execute self (Row r) ;;;
     ret {| success_count := success_count c + 1;
            failed_count := failed_count c;
            errors := errors c |})
    (fun e =>
     ret {| success_count := success_count c;
            failed_count := failed_count c + 1;
            errors := (errors c ++
                       [PDict [("record_index", PInt idx); ("error", PStr (str e))]])%list |}).

(** The [for idx, record in enumerate(records, 1)] loop. *)
Fixpoint insert_loop (self : SupabaseHandler) (items : list (Z * record)) (c : counters)
  : M S counters :=
  match items with
  | [] => ret c
  | (idx, r) :: items' =>
      c' <- insert_one self c idx r ;;
      insert_loop self items' c'
  end.

(** [SupabaseHandler.insert_records_one_by_one] *)
Definition insert_records_one_by_one (self : SupabaseHandler) (records : list record)
  : M S pyval :=
  c <- insert_loop self (enumerate records 1)
         {| success_count := 0; failed_count := 0; errors := [] |} ;;
  ret (PDict [ ("status", PStr "completed");
               ("records_inserted", PInt (success_count c));
               ("records_failed", PInt (failed_count c));
               ("table", PStr (table_name self));
               ("errors", PList (take 10 (errors c))) ]).

End Database.
End Database.

(** ** app/main.py *)

Module Main.

(** An HTTP response: status code and body. The body is JSON, but for the
    plain text of a server error. *)
Record Response := { status_code : Z; body : pyval }.

(** What FastAPI answers when a handler raises
    [HTTPException(status_code, detail)]. *)
Definition http_exception (status_code : Z) (detail : pyval) : Response :=
  {| status_code := status_code; body := PDict [("detail", detail)] |}.

(** Whether JSON can carry the value: it cannot carry NaN. *)
Fixpoint json_compliant (v : pyval) : bool :=
  match v with
  | PNaN => false
  | PList l => forallb json_compliant l
  | PDict d => forallb (fun kv => json_compliant (snd kv)) d
  | _ => true
  end.

(** What FastAPI answers when a handler returns a dictionary: after the
    handler has returned, the dictionary is rendered as JSON with
    [allow_nan=False] and sent with status 200; a NaN in it makes the
    rendering raise, outside any [try] of the handler, and the answer is
    the plain text of a server error. *)
Definition returned (content : pyval) : Response :=
  if json_compliant content
  then {| status_code := 200; body := content |}
  else {| status_code := 500; body := PStr "Internal Server Error" |}.

(** The application object the module builds when it is imported. *)
Record FastAPI := {
  title : string;
  description : string;
  version : string;
  routes : list (string * string)
}.

(** The statements at the top level of [main.py]: the logging setup, the
    application object and the route decorators. Nothing here reads the
    environment or builds a store handler. *)
Definition app : result FastAPI :=
  Ok {| title := "NJ Medical Fee Schedule Scraper API";
        description := "API to scrape, process, and store NJ medical fee schedules";
        version := "1.0.0";
        routes := [ ("GET", "/"); ("GET", "/health"); ("POST", "/scrape-and-store");
                    ("GET", "/test-download"); ("GET", "/test-supabase") ] |}.

Definition cell_to_py (c : cell) : pyval :=
  match c with
  | Null => PNaN
  | Str s => PStr s
  | Num n => PInt n
  end.

(** A row of [to_dict('records')] as a value: [dict(zip(columns, row))],
    so that of two columns of one label the later one gives the value. *)
Definition row_to_py (cols : list string) (r : list cell) : pyval :=
  PDict (dict_of (zip cols (map cell_to_py r))).

(** The dictionary [test_download] returns for the sheet it has read. *)
Definition test_download_content (df : DataFrame) : pyval :=
  PDict [ ("status", PStr "success");
          ("rows", PInt (len (rows df)));
          ("columns", PList (map (fun c : string => PStr c) (columns df)));
          ("sample_data", PList (map (row_to_py (columns df)) (values (head 3 df)))) ].

Section Endpoints.
Context {S : Type} (W : World S).
Local Open Scope py_scope.

(** [DataProcessor.read_excel] *)
Definition read_excel (file_path : Path) : M S DataFrame :=
  try_except
    (external (ReadExcel file_path) (read_excel_file W file_path))
    (fun e => raise e).

(** [DataProcessor.process_file] *)
Definition process_file (file_path : Path) : M S DataFrame :=
  df <- read_excel file_path ;;
  fun sys => (sys, DataProcessor.clean_data df).

(** [file_path.unlink(missing_ok=True)] *)
Definition unlink_missing_ok (file_path : Path) : M S unit :=
  external (Unlink file_path) (unlink W file_path).

(** [datetime.utcnow().isoformat()]: the clock is read; it does not raise. *)
Definition utcnow (sys : Sys S) : Sys S * string :=
  let '(s', t) := utcnow_isoformat W (ext sys) in
  ({| ext := s'; held := held sys; trace := (trace sys ++ [UtcNow])%list |}, t).

Definition timestamp : M S string :=
  fun sys => let '(sys', t) := utcnow sys in (sys', Ok t).

(** [root] *)
Definition root : Sys S -> Sys S * Response :=
  fun sys =>
    let '(sys', t) := utcnow sys in
    (sys', returned (PDict [ ("status", PStr "online");
                             ("message", PStr "NJ Medical Fee Schedule Scraper API");
                             ("timestamp", PStr t) ])).

(** [health_check] *)
Definition health_check : Sys S -> Sys S * Response :=
  fun sys => (sys, returned (PDict [("status", PStr "healthy")])).

(** A handler of the shape
    [try: pipeline  except Exception as e: raise HTTPException(500, detail e)]. *)
Definition handler (pipeline : M S Response) (detail : exn -> pyval)
  : Sys S -> Sys S * Response :=
  fun sys =>
    match pipeline sys with
    | (sys', Ok resp) => (sys', resp)
    | (sys', Raise e) => (sys', http_exception 500 (detail e))
    end.

(** The [try] block of [scrape_and_store]. *)
Definition scrape_and_store_pipeline (insert_method : string) : M S Response :=
  scraper <- Scraper.init W ;;
  file_path <- Scraper.download_excel_file W scraper true ;;
  df_cleaned <- process_file file_path ;;
  let records := to_dict_records df_cleaned in
  db_handler <- Database.init W ;;
  result <- (if String.eqb insert_method "one_by_one"
             then Database.insert_records_one_by_one W db_handler records
             else Database.insert_records W db_handler records) ;;
  unlink_missing_ok file_path ;;;
  t <- timestamp ;;
  ret {| status_code := 200;
         body := PDict [ ("status", PStr "success");
                         ("message", PStr "Data scraped and stored successfully");
                         ("details", result);
                         ("timestamp", PStr t) ] |}.

(** [scrape_and_store] *)
Definition scrape_and_store (insert_method : string) : Sys S -> Sys S * Response :=
  handler (scrape_and_store_pipeline insert_method)
    (fun e => PDict [ ("error", PStr (str e));
                      ("message", PStr "Failed to scrape and store data") ]).

(** The [try] block of [test_download]. Its last statement returns the
    dictionary; what the client gets is what FastAPI makes of it, and no
    [except] clause of the handler sees a failure of that. *)
Definition test_download_pipeline : M S Response :=
  scraper <- Scraper.init W ;;
  file_path <- Scraper.download_excel_file W scraper true ;;
  df <- read_excel file_path ;;
  unlink_missing_ok file_path ;;;
  ret (returned (test_download_content df)).

(** [test_download] *)
Definition test_download : Sys S -> Sys S * Response :=
  handler test_download_pipeline (fun e => PStr (str e)).

(** The [try] block of [test_supabase]. *)
Definition test_supabase_pipeline : M S Response :=
  db_handler <- Database.init W ;;
  ret (returned
         (PDict [ ("status", PStr "success");
                  ("message", PStr "Supabase connection successful");
                  ("table", PStr (Database.table_name db_handler)) ])).

(** [test_supabase] *)
Definition test_supabase : Sys S -> Sys S * Response :=
  handler test_supabase_pipeline (fun e => PStr (str e)).

(** The requests the application routes. *)
Inductive request :=
| GetRoot
| GetHealth
| PostScrapeAndStore (insert_method : string)
| GetTestDownload
| GetTestSupabase.

Definition dispatch (req : request) : Sys S -> Sys S * Response :=
  match req with
  | GetRoot => root
  | GetHealth => health_check
  | PostScrapeAndStore insert_method => scrape_and_store insert_method
  | GetTestDownload => test_download
  | GetTestSupabase => test_supabase
  end.

(** The try block an endpoint wraps, for those that have one. *)
Definition pipeline_of (req : request) : option (M S Response) :=
  match req with
  | GetRoot | GetHealth => None
  | PostScrapeAndStore insert_method => Some (scrape_and_store_pipeline insert_method)
  | GetTestDownload => Some test_download_pipeline
  | GetTestSupabase => Some test_supabase_pipeline
  end.

(** The application answering requests one after the other. *)
Fixpoint serve (reqs : list request) (sys : Sys S) : Sys S * list Response :=
  match reqs with
  | [] => (sys, [])
  | req :: reqs' =>
      let '(sys', resp) := dispatch req sys in
      let '(sys'', resps) := serve reqs' sys' in
      (sys'', resp :: resps)
  end.

End Endpoints.
End Main.


(** * Properties *)

(** ** Cleaning *)

Module CleaningSpec.
Import DataProcessor.

(** The labels of a cleaned frame. *)
Definition CLEANED_COLUMNS : list string :=
  [ "cpt_hcps"; "description"; "physicians_fees_north"; "asc_fees_north" ].

(** The cell of row [r] under header [h], reading headers and cells side by
    side. *)
Fixpoint under (h : string) (cols : list string) (r : list cell) : cell :=
  match cols, r with
  | c :: cols', x :: r' => if String.eqb c h then x else under h cols' r'
  | _, _ => Null
  end.

(** An input row cut down to the four required headers. *)
Definition projected (df : DataFrame) (r : list cell) : list cell :=
  map (fun h => under h (columns df) r) COLUMNS_TO_KEEP.

(** A projected row is kept when its code is present and it is not empty
    throughout. *)
Definition kept (r : list cell) : bool :=
  notna (nth 0 r Null) && existsb notna r.

(** The rows the specification asks for, in input order. *)
Definition cleaned_rows (df : DataFrame) : list (list cell) :=
  List.filter kept (map (projected df) (values df)).

(** What is asked of [clean_data] at a frame [df]. *)
Definition cleans (df : DataFrame) : Prop :=
  exists out,
    clean_data df = Ok out /\
    columns out = CLEANED_COLUMNS /\
    values out = cleaned_rows df /\
    index out = range_index (length (cleaned_rows df)).

(** The claim as the specification words it: any frame that contains the
    four headers. *)
Definition cleans_whenever_present (df : DataFrame) : Prop :=
  (forall h, In h COLUMNS_TO_KEEP -> In h (columns df)) -> cleans df.

(** A frame in which the header "Description" labels two columns. *)
Definition twice_described : DataFrame :=
  {| columns := [ "CPT* HCPS"; "Description"; "Description";
                  "Physicians' Fees      North"; "ASC Fees North" ];
     rows := [ (0, [ Str "99213"; Str "Office visit"; Str "Visit";
                     Str "150.00"; Str "120.00" ]) ] |}.

(** The fixture of the end-to-end test: one fee row and one blank row. *)
Definition fixture : DataFrame :=
  {| columns := COLUMNS_TO_KEEP;
     rows := [ (0, [ Str "99213"; Str "Office visit"; Str "150.00"; Str "120.00" ]);
               (1, [ Null; Null; Null; Null ]) ] |}.

(** A sheet with more columns than are kept and no data rows. *)
Definition headers_only : DataFrame :=
  {| columns := [ "Mod"; "CPT* HCPS"; "Description"; "Physicians' Fees      North";
                  "ASC Fees North"; "ASC Fees South" ];
     rows := [] |}.

End CleaningSpec.


(** ** What the store did, seen from outside *)

Module InsertSpec.
Section InsertSpec.
Context {S : Type} (W : World S).

(** The answers of the store to the single-row inserts of [records] into
    [table], made one after the other from the state [s]. *)
Fixpoint outcomes (table : string) (records : list record) (s : S)
  : list (result APIResponse) :=
  match records with
  | [] => []
  | r :: records' =>
      let '(s', o) := insert_execute W table (Row r) s in
      o :: outcomes table records' s'
  end.

(** The inserts that raised, each with its position counted from [i], in
    input order. *)
Fixpoint failures_from {A} (i : Z) (os : list (result A)) : list (Z * exn) :=
  match os with
  | [] => []
  | Ok _ :: os' => failures_from (i + 1) os'
  | Raise e :: os' => (i, e) :: failures_from (i + 1) os'
  end.

(** The failing records with their 1-based positions. *)
Definition failures (table : string) (records : list record) (s : S) : list (Z * exn) :=
  failures_from 1 (outcomes table records s).

(** The number K of records whose insert raises. *)
Definition failed (table : string) (records : list record) (s : S) : nat :=
  length (failures table records s).

(** The error entry reported for a failing record. *)
Definition error_entry (f : Z * exn) : pyval :=
  PDict [("record_index", PInt f.1); ("error", PStr (str f.2))].

End InsertSpec.

(** The calls the one-by-one loop makes for [records]. *)
Definition row_calls (table : string) (records : list record) : list call :=
  map (fun r => InsertExecute table (Row r)) records.

End InsertSpec.

(** ** What the endpoints are asked to answer on failure *)

Module EndpointSpec.
Import Main.

(** The body carries field [k], at its top level or inside ["detail"]. *)
Definition has_field (k : string) (resp : Response) : Prop :=
  is_Some (field k (body resp)) \/
  exists d, field "detail" (body resp) = Some d /\ is_Some (field k d).

(** The [detail] each endpoint attaches to its HTTP 500. *)
Definition failure_detail (req : request) (e : exn) : pyval :=
  match req with
  | PostScrapeAndStore _ =>
      PDict [ ("error", PStr (str e));
              ("message", PStr "Failed to scrape and store data") ]
  | _ => PStr (str e)
  end.

(** The claim as the specification words it, at one request: a failure of
    the pipeline is answered by a 500 whose body has both an [error] and a
    [message] field. *)
Definition error_and_message_on_failure {S} (W : World S) (req : request) (sys : Sys S)
  : Prop :=
  forall p sys' e,
    pipeline_of W req = Some p ->
    p sys = (sys', Raise e) ->
    let resp := (dispatch W req sys).2 in
    status_code resp = 500 /\ has_field "error" resp /\ has_field "message" resp.

(** What is left of the pipeline of [scrape_and_store] once the download,
    the cleaning and the construction of the handler have gone through. *)
Definition after_insert {S} (W : World S) (file_path : Path) (result : pyval)
  : M S Response :=
  bind (unlink_missing_ok W file_path) (fun _ =>
  bind (timestamp W) (fun t =>
  ret {| status_code := 200;
         body := PDict [ ("status", PStr "success");
                         ("message", PStr "Data scraped and stored successfully");
                         ("details", result);
                         ("timestamp", PStr t) ] |})).

(** A credential is missing when the variable is unset or empty. *)
Definition absent_or_empty (env : gmap string string) (name : string) : Prop :=
  env !! name = None \/ env !! name = Some "".

Definition credentials_missing {S} (W : World S) : Prop :=
  absent_or_empty (environ W) "SUPABASE_URL" \/
  absent_or_empty (environ W) "SUPABASE_KEY".

Definition missing_credentials_error : exn :=
  Exn ValueError "Missing Supabase credentials in environment variables".

(** The claim as the specification words it: with a credential missing the
    handler cannot be built, nothing has been called, and the application
    fails to start. *)
Definition fatal_at_startup {S} (W : World S) (sys : Sys S) : Prop :=
  credentials_missing W ->
  Database.init W sys = (sys, Raise missing_credentials_error) /\
  exists e, app = Raise e.

End EndpointSpec.

(** ** Concrete worlds *)

Module Fixtures.

(** What varies between the scenarios: the environment, the sheet the
    download holds, the outcome of the navigation, and the payloads the
    store refuses. *)
Record scenario := {
  env : gmap string string;
  sheet : result DataFrame;
  navigation : result unit;
  refuses : payload -> option exn
}.

Definition answer {A} (r : result A) : unit -> unit * result A :=
  fun s => (s, r).

Definition stored (p : payload) : APIResponse :=
  {| data := match p with Row r => [r] | Rows rs => rs end; count := None |}.

Definition world_of (sc : scenario) : World unit :=
  {| environ := env sc;
     sync_playwright_start := answer (Ok tt);
     chromium_launch := fun _ => answer (Ok tt);
     new_context := answer (Ok tt);
     new_page := answer (Ok tt);
     set_default_timeout := fun _ => answer (Ok tt);
     goto := fun _ => answer (navigation sc);
     wait_for := fun _ => answer (Ok tt);
     expect_download_click := fun _ => answer (Ok "ex1_130104.xls");
     save_as := fun _ => answer (Ok tt);
     context_close := answer (Ok tt);
     browser_close := answer (Ok tt);
     playwright_stop := answer (Ok tt);
     mkdir := fun _ => answer (Ok tt);
     read_excel_file := fun _ => answer (sheet sc);
     unlink := fun _ => answer (Ok tt);
     create_client := fun _ _ => answer (Ok tt);
     insert_execute := fun _ p =>
       answer (match refuses sc p with
               | Some e => Raise e
               | None => Ok (stored p)
               end);
     utcnow_isoformat := fun s => (s, "2024-01-01T00:00:00") |}.

(** A freshly started process: nothing held, nothing called. *)
Definition boot : Sys unit := {| ext := tt; held := []; trace := [] |}.

Definition credentials : gmap string string :=
  <["SUPABASE_URL" := "https://example.supabase.co"]>
    (<["SUPABASE_KEY" := "service-key"]> ∅).

(** A sheet of three fee rows; the store will refuse the second. *)
Definition three_rows : DataFrame :=
  {| columns := DataProcessor.COLUMNS_TO_KEEP;
     rows := [ (0, [ Str "99213"; Str "Office visit"; Str "150.00"; Str "120.00" ]);
               (1, [ Str "00000"; Str "Unlisted"; Str "1.00"; Str "1.00" ]);
               (2, [ Str "99214"; Str "Office visit, long"; Str "210.00"; Str "160.00" ]) ] |}.

Definition constraint_violation : exn :=
  Exn (OtherError "APIError") "new row violates check constraint".

Definition timeout_error : exn :=
  Exn (OtherError "TimeoutError") "Timeout 60000ms exceeded.".


(** The store refuses every bulk insert. *)
Definition refuses_bulk (p : payload) : option exn :=
  match p with
  | Row _ => None
  | Rows _ => Some constraint_violation
  end.

Definition accepts_all (p : payload) : option exn := None.


(** Everything works but the bulk insert. *)
Definition bulk_refused : World unit :=
  world_of {| env := credentials; sheet := Ok three_rows;
              navigation := Ok tt; refuses := refuses_bulk |}.

(** Everything works. *)
Definition all_well : World unit :=
  world_of {| env := credentials; sheet := Ok three_rows;
              navigation := Ok tt; refuses := accepts_all |}.

(** The page does not load in time. *)
Definition page_times_out : World unit :=
  world_of {| env := credentials; sheet := Ok three_rows;
              navigation := Raise timeout_error; refuses := accepts_all |}.

(** No credentials in the environment. *)
Definition no_credentials : World unit :=
  world_of {| env := ∅; sheet := Ok three_rows;
              navigation := Ok tt; refuses := accepts_all |}.

(** The key is set, the URL is empty. *)
Definition empty_url : World unit :=
  world_of {| env := <["SUPABASE_URL" := ""]> (<["SUPABASE_KEY" := "service-key"]> ∅);
              sheet := Ok three_rows; navigation := Ok tt; refuses := accepts_all |}.

End Fixtures.


(** ** Further notions used to describe the code *)

Module CoverageSpec.
Import DataProcessor.

(** [clean_data] with the [dropna(how='all')] step left out. *)
Definition clean_data_single_drop (df : DataFrame) : result DataFrame :=
  rbind (getitem df COLUMNS_TO_KEEP) (fun df_cleaned =>
  let df_cleaned := rename COLUMN_RENAME df_cleaned in
  rbind (dropna_subset ["cpt_hcps"] df_cleaned) (fun df_cleaned =>
  let df_cleaned := reset_index df_cleaned in
  Ok df_cleaned)).

(** The dictionary [to_dict('records')] makes of a cleaned row. *)
Definition fee_record (code description physicians asc : cell) : record :=
  <["asc_fees_north" := asc]>
    (<["physicians_fees_north" := physicians]>
       (<["description" := description]>
          (<["cpt_hcps" := code]> ∅))).

(** Calls to the browser automation. *)
Definition is_browser_call (c : call) : Prop :=
  match c with
  | SyncPlaywrightStart | ChromiumLaunch _ | NewContext _ | NewPage
  | SetDefaultTimeout _ | Goto _ _ | WaitFor _ _ _ | ExpectDownloadClick _ _
  | SaveAs _ | ContextClose | BrowserClose | PlaywrightStop => True
  | _ => False
  end.

(** Calls to the file system. *)
Definition is_file_call (c : call) : Prop :=
  match c with
  | Mkdir _ | ReadExcel _ | Unlink _ => True
  | _ => False
  end.

(** Calls to the remote store: building the client, inserting. *)
Definition is_store_call (c : call) : Prop :=
  match c with
  | CreateClient _ _ | InsertExecute _ _ => True
  | _ => False
  end.

(** An insert, if the call is one, goes to the table test_cleaning. *)
Definition inserts_into_test_cleaning (c : call) : Prop :=
  match c with
  | InsertExecute table _ => table = "test_cleaning"
  | _ => True
  end.

(** [m] only adds calls that satisfy [P] to the trace, and a value it
    returns satisfies [Q]. *)
Definition emits {S A} (P : call -> Prop) (Q : A -> Prop) (m : M S A) : Prop :=
  forall sys,
    (exists l, trace (m sys).1 = (trace sys ++ l)%list /\ Forall P l) /\
    (forall a, (m sys).2 = Ok a -> Q a).

(** The same for an endpoint, which returns a response and never raises. *)
Definition answers_emitting {S} (P : call -> Prop) (h : Sys S -> Sys S * Main.Response)
  : Prop :=
  forall sys, exists l, trace (h sys).1 = (trace sys ++ l)%list /\ Forall P l.

End CoverageSpec.

(** ** More worlds *)

Module MoreFixtures.
Import Fixtures.

(** Outcomes of the calls that [Fixtures.world_of] lets succeed. *)
Record faults := {
  launching : result unit;
  closing_context : result unit;
  building_client : result unit
}.

Definition world_with (sc : scenario) (f : faults) : World unit :=
  {| environ := env sc;
     sync_playwright_start := answer (Ok tt);
     chromium_launch := fun _ => answer (launching f);
     new_context := answer (Ok tt);
     new_page := answer (Ok tt);
     set_default_timeout := fun _ => answer (Ok tt);
     goto := fun _ => answer (navigation sc);
     wait_for := fun _ => answer (Ok tt);
     expect_download_click := fun _ => answer (Ok "ex1_130104.xls");
     save_as := fun _ => answer (Ok tt);
     context_close := answer (closing_context f);
     browser_close := answer (Ok tt);
     playwright_stop := answer (Ok tt);
     mkdir := fun _ => answer (Ok tt);
     read_excel_file := fun _ => answer (sheet sc);
     unlink := fun _ => answer (Ok tt);
     create_client := fun _ _ => answer (building_client f);
     insert_execute := fun _ p =>
       answer (match refuses sc p with
               | Some e => Raise e
               | None => Ok (stored p)
               end);
     utcnow_isoformat := fun s => (s, "2024-01-01T00:00:00") |}.

Definition usual : scenario :=
  {| env := credentials; sheet := Ok three_rows;
     navigation := Ok tt; refuses := accepts_all |}.

Definition launch_error : exn :=
  Exn (OtherError "Error") "Executable doesn't exist".

Definition closed_error : exn :=
  Exn (OtherError "Error") "Target closed".

Definition connection_error : exn :=
  Exn (OtherError "SupabaseException") "Invalid URL".

(** The browser binary is not installed. *)
Definition no_browser : World unit :=
  world_with usual {| launching := Raise launch_error;
                      closing_context := Ok tt; building_client := Ok tt |}.

(** Closing the context fails. *)
Definition close_fails : World unit :=
  world_with usual {| launching := Ok tt;
                      closing_context := Raise closed_error; building_client := Ok tt |}.

(** The page does not load in time, and closing the context fails too. *)
Definition timeout_and_close_fails : World unit :=
  world_with {| env := credentials; sheet := Ok three_rows;
                navigation := Raise timeout_error; refuses := accepts_all |}
             {| launching := Ok tt;
                closing_context := Raise closed_error; building_client := Ok tt |}.

(** The store client cannot be built. *)
Definition client_fails : World unit :=
  world_with usual {| launching := Ok tt;
                      closing_context := Ok tt; building_client := Raise connection_error |}.

(** A sheet that lacks the ASC fee column. *)
Definition no_asc_column : DataFrame :=
  {| columns := [ "CPT* HCPS"; "Description"; "Physicians' Fees      North" ];
     rows := [ (0, [ Str "99213"; Str "Office visit"; Str "150.00" ]) ] |}.

(** The download works and holds that sheet. *)
Definition incomplete_sheet : World unit :=
  world_of {| env := credentials; sheet := Ok no_asc_column;
              navigation := Ok tt; refuses := accepts_all |}.

(** The download works; the environment has no credentials. *)
Definition downloaded_no_credentials : World unit :=
  world_of {| env := ∅; sheet := Ok three_rows;
              navigation := Ok tt; refuses := accepts_all |}.

(** A sheet of five rows, with an extra column and its own index labels. *)
Definition five_rows : DataFrame :=
  {| columns := [ "Mod"; "CPT* HCPS"; "Description";
                  "Physicians' Fees      North"; "ASC Fees North" ];
     rows := [ (10, [ Null; Str "99213"; Str "Office visit"; Num 150; Num 120 ]);
               (11, [ Null; Null; Str "no code"; Num 1; Num 1 ]);
               (12, [ Str "26"; Str "99214"; Null; Null; Null ]);
               (13, [ Null; Null; Null; Null; Null ]);
               (14, [ Null; Str "99215"; Str "Office visit, high"; Num 300; Num 200 ]) ] |}.

Definition five_rows_world : World unit :=
  world_of {| env := credentials; sheet := Ok five_rows;
              navigation := Ok tt; refuses := accepts_all |}.

End MoreFixtures.

(** ** Proofs: cleaning *)

Module CleaningProofs.
Import DataProcessor CleaningSpec.

Lemma positions_from_absent k cols n :
  count_occ string_dec cols k = 0%nat -> positions_from n k cols = [].
Proof.
  revert n. induction cols as [|c cols IH]; intros n H; simpl in *; [done|].
  destruct (string_dec c k) as [->|Hne]; [discriminate|].
  apply String.eqb_neq in Hne. rewrite Hne. by apply IH.
Qed.

(** A header that labels one column is found at one position, and the cell
    there is the cell under the header. *)
Lemma positions_from_once k cols n :
  count_occ string_dec cols k = 1%nat ->
  exists i, positions_from n k cols = [(n + i)%nat] /\ nth i cols "" = k /\
            forall r, nth i r Null = under k cols r.
Proof.
  revert n. induction cols as [|c cols IH]; intros n H; simpl in *; [discriminate|].
  destruct (string_dec c k) as [->|Hne].
  - injection H as H. exists 0%nat. rewrite String.eqb_refl, Nat.add_0_r.
    rewrite (positions_from_absent _ _ _ H). repeat split.
    by intros [|x r].
  - pose proof Hne as Hne'. apply String.eqb_neq in Hne'. rewrite Hne'.
    destruct (IH (S n) H) as (i & Hp & Hn & Hu). exists (S i).
    rewrite Hp. replace (S n + i)%nat with (n + S i)%nat by lia. repeat split; [done|].
    intros [|x r]; simpl; [by destruct i|]. apply Hu.
Qed.

(** A header that is present is found, first at a position that carries it. *)
Lemma positions_from_present k cols n :
  In k cols ->
  exists i ps, positions_from n k cols = (n + i)%nat :: ps /\ nth i cols "" = k.
Proof.
  revert n. induction cols as [|c cols IH]; intros n H; simpl in *; [done|].
  destruct (String.eqb_spec c k) as [->|Hne].
  - exists 0%nat. eexists. by rewrite Nat.add_0_r.
  - destruct H as [H|H]; [done|]. destruct (IH (S n) H) as (i & ps & Hp & Hn).
    exists (S i), ps. rewrite Hp. split; [f_equal; lia | done].
Qed.

Lemma map_snd_filter {A B} (f : B -> bool) (l : list (A * B)) :
  map snd (List.filter (fun r => f r.2) l) = List.filter f (map snd l).
Proof.
  induction l as [|[a b] l IH]; simpl; [done|]. destruct (f b); simpl; by rewrite IH.
Qed.

Lemma filter_filter {A} (f g : A -> bool) (l : list A) :
  List.filter f (List.filter g l) = List.filter (fun x => g x && f x) l.
Proof.
  induction l as [|a l IH]; simpl; [done|].
  destruct (g a); simpl; [destruct (f a)|]; by rewrite IH.
Qed.

Lemma values_reset_index df : values (reset_index df) = values df.
Proof.
  unfold values, reset_index; cbn [rows]. apply snd_zip.
  unfold range_index. rewrite !length_map, length_seq. lia.
Qed.

Lemma index_reset_index df :
  index (reset_index df) = range_index (length (rows df)).
Proof.
  unfold index, reset_index; cbn [rows]. apply fst_zip.
  unfold range_index, values. rewrite !length_map, length_seq. lia.
Qed.

Lemma values_dropna_all df :
  values (dropna_all df) = List.filter (existsb notna) (values df).
Proof. unfold values, dropna_all; cbn [rows]. apply (map_snd_filter (existsb notna)). Qed.

(** C1 (as amended). For every input table in which each of the four
    required headers labels exactly one column, [clean_data] returns a table
    with exactly the four columns cpt_hcps, description,
    physicians_fees_north, asc_fees_north, whose rows are the input rows cut
    down to those columns, minus the rows with a null cpt_hcps and minus the
    fully empty rows, in the same relative order, numbered 0..n-1. *)
Theorem clean_data_projects_and_filters df :
  (forall h, In h COLUMNS_TO_KEEP -> count_occ string_dec (columns df) h = 1%nat) ->
  exists out,
    clean_data df = Ok out /\
    columns out = CLEANED_COLUMNS /\
    values out = cleaned_rows df /\
    index out = range_index (length (cleaned_rows df)).
Proof.
  intros H. unfold clean_data, getitem.
  destruct (positions_from_once "CPT* HCPS" (columns df) 0) as (i1 & P1 & L1 & U1);
    [apply H; simpl; tauto|].
  destruct (positions_from_once "Description" (columns df) 0) as (i2 & P2 & L2 & U2);
    [apply H; simpl; tauto|].
  destruct (positions_from_once "Physicians' Fees      North" (columns df) 0)
    as (i3 & P3 & L3 & U3); [apply H; simpl; tauto|].
  destruct (positions_from_once "ASC Fees North" (columns df) 0) as (i4 & P4 & L4 & U4);
    [apply H; simpl; tauto|].
  unfold COLUMNS_TO_KEEP at 1. cbn [get_indexer_for]. unfold positions.
  rewrite P1, P2, P3, P4. cbn [Nat.add app rbind].
  unfold rename, take_columns, take_labels. cbn [columns rows map].
  rewrite L1, L2, L3, L4.
  unfold dropna_subset. cbn [columns rows].
  set (g := get_indexer_for _ _). vm_compute in g. subst g. cbn [rbind].
  eexists. split; [reflexivity|].
  assert (V : values (reset_index (dropna_all
     {| columns := CLEANED_COLUMNS;
        rows := List.filter (fun r : Z * list cell => forallb notna (take_cells [0%nat] r.2))
                 (map (fun r : Z * list cell => (r.1, take_cells [i1; i2; i3; i4] r.2))
                      (rows df)) |}))
     = cleaned_rows df).
  { rewrite values_reset_index, values_dropna_all. unfold values at 1. cbn [rows].
    rewrite (map_snd_filter (fun r => forallb notna (take_cells [0%nat] r))).
    rewrite filter_filter. unfold cleaned_rows, values.
    rewrite !map_map. cbn [snd].
    erewrite (map_ext (fun x => take_cells _ x.2) (fun x => projected df x.2)).
    - apply filter_ext. intros r. unfold kept. cbn. by rewrite andb_true_r.
    - intros [z r]. cbn. by rewrite U1, U2, U3, U4. }
  split; [reflexivity|]. split; [exact V|].
  rewrite index_reset_index. rewrite <- V, values_reset_index.
  unfold values. by rewrite length_map.
Qed.

Lemma clean_data_projects_and_filters_witness :
  exists out,
    clean_data fixture = Ok out /\
    columns out = CLEANED_COLUMNS /\
    values out = cleaned_rows fixture /\
    index out = range_index (length (cleaned_rows fixture)).
Proof.
  apply (clean_data_projects_and_filters fixture).
  intros h Hin. simpl in Hin.
  destruct Hin as [<-|[<-|[<-|[<-|[]]]]]; reflexivity.
Defined.

(** C1 (as worded) fails on a frame in which a required header labels two
    columns: both columns are selected and the result has five. *)
Lemma clean_data_repeated_header_counterexample :
  ~ cleans_whenever_present twice_described.
Proof.
  intros H. destruct H as (out & Hc & Hcols & _).
  - intros h Hin. simpl in Hin. simpl.
    destruct Hin as [<-|[<-|[<-|[<-|[]]]]]; tauto.
  - vm_compute in Hc. injection Hc as <-. discriminate Hcols.
Qed.

(** C7. Cleaning the fixture table (the four required headers, the row
    99213 / Office visit / 150.00 / 120.00 and one fully blank row) yields
    exactly one record, with those four values under the renamed keys. *)
Theorem fixture_yields_one_record :
  exists out,
    clean_data fixture = Ok out /\
    to_dict_records out =
      [ <["cpt_hcps" := Str "99213"]>
          (<["description" := Str "Office visit"]>
             (<["physicians_fees_north" := Str "150.00"]>
                (<["asc_fees_north" := Str "120.00"]> ∅))) ].
Proof. eexists. split; [reflexivity|]. vm_compute. reflexivity. Qed.

(** C8. On a table that has the four required headers and no data rows,
    [clean_data] raises nothing and returns a table with no rows. *)
Theorem clean_data_no_rows df :
  (forall h, In h COLUMNS_TO_KEEP -> In h (columns df)) ->
  rows df = [] ->
  exists out, clean_data df = Ok out /\ rows out = [].
Proof.
  intros H Hrows. unfold clean_data, getitem.
  destruct (positions_from_present "CPT* HCPS" (columns df) 0) as (i1 & p1 & P1 & L1);
    [apply H; simpl; tauto|].
  destruct (positions_from_present "Description" (columns df) 0) as (i2 & p2 & P2 & _);
    [apply H; simpl; tauto|].
  destruct (positions_from_present "Physicians' Fees      North" (columns df) 0)
    as (i3 & p3 & P3 & _); [apply H; simpl; tauto|].
  destruct (positions_from_present "ASC Fees North" (columns df) 0) as (i4 & p4 & P4 & _);
    [apply H; simpl; tauto|].
  unfold COLUMNS_TO_KEEP at 1. cbn [get_indexer_for]. unfold positions.
  rewrite P1, P2, P3, P4. cbn [Nat.add app rbind].
  unfold rename, take_columns, take_labels. rewrite Hrows. cbn [columns rows map].
  rewrite L1. unfold dropna_subset. cbn [columns rows get_indexer_for].
  unfold positions. cbn [COLUMN_RENAME lookup_label positions_from].
  change ("CPT* HCPS" =? "CPT* HCPS")%string with true.
  change ("cpt_hcps" =? "cpt_hcps")%string with true.
  cbn [rbind List.filter]. eexists. split; reflexivity.
Qed.

Lemma clean_data_no_rows_witness :
  exists out, clean_data headers_only = Ok out /\ rows out = [].
Proof.
  apply (clean_data_no_rows headers_only); [|reflexivity].
  intros h Hin. simpl in Hin. simpl.
  destruct Hin as [<-|[<-|[<-|[<-|[]]]]]; tauto.
Defined.

End CleaningProofs.


(** ** Proofs: the store handler *)

Module InsertProofs.
Import Database InsertSpec.

Section Generic.
Context {S : Type} (W : World S).

(** The loop, from any counters and any index: it returns, it adds the
    refused records to the failures and the others to the successes, and it
    appends the error entries in input order. *)
Lemma insert_loop_spec self records :
  forall start c sys,
    let fs := failures_from start (outcomes W (table_name self) records (ext sys)) in
    exists sys',
      insert_loop W self (enumerate records start) c sys =
        (sys', Ok {| success_count := success_count c + (len records - len fs);
                     failed_count := failed_count c + len fs;
                     errors := (errors c ++ map error_entry fs)%list |}) /\
      held sys' = held sys /\
      trace sys' = (trace sys ++ row_calls (table_name self) records)%list.
Proof.
  induction records as [|r records IH]; intros start c sys fs.
  - exists sys. subst fs. cbn. unfold ret. rewrite !app_nil_r.
    replace (success_count c + (len (@nil record) - len (@nil (Z * exn))))
      with (success_count c) by (unfold len; simpl; lia).
    replace (failed_count c + len (@nil (Z * exn))) with (failed_count c)
      by (unfold len; simpl; lia).
    by destruct c.
  - subst fs. cbn [enumerate insert_loop outcomes row_calls map].
    unfold bind at 1. unfold insert_one, try_except, bind, table_insert_execute, external.
    destruct (insert_execute W (table_name self) (Row r) (ext sys)) as [s' [resp|e]];
      cbn [failures_from]; unfold ret; cbn beta iota.
    + match goal with |- context [insert_loop W self _ ?c' ?sys1] =>
        destruct (IH (start + 1) c' sys1) as (sys' & Hrun & Hheld & Htrace) end.
      cbn [ext held trace success_count failed_count errors] in *.
      exists sys'. rewrite Hrun, Hheld, Htrace.
      split; [|split; [done | by rewrite <- app_assoc]].
      do 2 f_equal. f_equal; unfold len; cbn [length]; lia.
    + match goal with |- context [insert_loop W self _ ?c' ?sys1] =>
        destruct (IH (start + 1) c' sys1) as (sys' & Hrun & Hheld & Htrace) end.
      cbn [ext held trace success_count failed_count errors] in *.
      exists sys'. rewrite Hrun, Hheld, Htrace.
      split; [|split; [done | by rewrite <- app_assoc]].
      do 2 f_equal. f_equal; [unfold len; cbn [length]; lia .. |].
      cbn [map]. by rewrite <- app_assoc.
Qed.

(** The whole function: the dictionary it returns. *)
Lemma insert_records_one_by_one_spec self records sys :
  let fs := failures W (table_name self) records (ext sys) in
  exists sys',
    insert_records_one_by_one W self records sys =
      (sys', Ok (PDict [ ("status", PStr "completed");
                         ("records_inserted", PInt (len records - len fs));
                         ("records_failed", PInt (len fs));
                         ("table", PStr (table_name self));
                         ("errors", PList (take 10 (map error_entry fs))) ])) /\
    held sys' = held sys /\
    trace sys' = (trace sys ++ row_calls (table_name self) records)%list.
Proof.
  intros fs. unfold insert_records_one_by_one, bind.
  destruct (insert_loop_spec self records 1
              {| success_count := 0; failed_count := 0; errors := [] |} sys)
    as (sys' & Hrun & Hheld & Htrace).
  rewrite Hrun. exists sys'. cbn. unfold ret. by rewrite !Z.add_0_l.
Qed.

End Generic.
End InsertProofs.


(** ** Proofs: failures and their positions *)

Module FailureProofs.
Import InsertSpec.

(** A pair is among the failures exactly when the insert at that position
    raised that exception. *)
Lemma failures_from_lookup {A} (os : list (result A)) :
  forall i j e,
    In (j, e) (failures_from i os) <->
    i <= j /\ os !! Z.to_nat (j - i) = Some (Raise e).
Proof.
  induction os as [|o os IH]; intros i j e.
  - cbn. split; [done | by intros [_ ?]].
  - assert (Hstep : i + 1 <= j -> Z.to_nat (j - i) = Datatypes.S (Z.to_nat (j - (i + 1))))
      by lia.
    destruct o as [a|e']; cbn [failures_from In]; rewrite ?IH.
    + split.
      * intros [Hle Hl]. split; [lia|]. by rewrite Hstep.
      * intros [Hle Hl]. destruct (decide (i = j)) as [->|Hne].
        -- by rewrite Z.sub_diag in Hl.
        -- rewrite Hstep in Hl by lia. split; [lia | done].
    + split.
      * intros [Heq|[Hle Hl]].
        -- injection Heq as -> ->. split; [lia|]. by rewrite Z.sub_diag.
        -- split; [lia|]. by rewrite Hstep.
      * intros [Hle Hl]. destruct (decide (i = j)) as [->|Hne].
        -- left. rewrite Z.sub_diag in Hl. cbn in Hl. by injection Hl as ->.
        -- right. rewrite Hstep in Hl by lia. split; [lia | done].
Qed.

(** Failures are listed by increasing position. *)
Lemma failures_from_sorted {A} (os : list (result A)) :
  forall i, StronglySorted Z.lt (map fst (failures_from i os)).
Proof.
  induction os as [|o os IH]; intros i; [constructor|].
  destruct o as [a|e]; cbn [failures_from map fst]; [apply IH|].
  constructor; [apply IH|].
  apply List.Forall_forall. intros j Hj. apply in_map_iff in Hj.
  destruct Hj as ([j' e'] & <- & Hin). apply failures_from_lookup in Hin. simpl. lia.
Qed.

(** There are no more failures than inserts. *)
Lemma failures_from_length {A} (os : list (result A)) :
  forall i, (length (failures_from i os) <= length os)%nat.
Proof.
  induction os as [|[a|e] os IH]; intros i; cbn [failures_from length];
    [lia | specialize (IH (i + 1)); lia ..].
Qed.

Lemma outcomes_length {S} (W : World S) table records :
  forall s, length (outcomes W table records s) = length records.
Proof.
  induction records as [|r records IH]; intros s; cbn [outcomes]; [done|].
  destruct (insert_execute W table (Row r) s) as [s' o]. cbn. by rewrite IH.
Qed.

End FailureProofs.


(** ** Proofs: the store claims *)

Module StoreClaims.
Import Database InsertSpec InsertProofs FailureProofs Main EndpointSpec Fixtures.

(** A handler that [__init__] built writes to the table test_cleaning. *)
Lemma init_table_name {S} (W : World S) sys sys' self :
  Database.init W sys = (sys', Ok self) -> table_name self = "test_cleaning".
Proof.
  unfold Database.init. destruct (_ || _); [discriminate|].
  unfold bind, external, ret.
  destruct (create_client W _ _ (ext sys)) as [s' [[]|e]]; [|discriminate].
  intros H. by injection H as _ <-.
Qed.

Lemma pipeline_upto_insert {S} (W : World S) insert_method
      sys sys1 sys2 sys3 sys4 scraper file_path df db :
  Scraper.init W sys = (sys1, Ok scraper) ->
  Scraper.download_excel_file W scraper true sys1 = (sys2, Ok file_path) ->
  process_file W file_path sys2 = (sys3, Ok df) ->
  Database.init W sys3 = (sys4, Ok db) ->
  scrape_and_store_pipeline W insert_method sys =
    bind (if String.eqb insert_method "one_by_one"
          then insert_records_one_by_one W db (to_dict_records df)
          else insert_records W db (to_dict_records df))
         (after_insert W file_path) sys4.
Proof.
  intros H1 H2 H3 H4. unfold scrape_and_store_pipeline.
  unfold bind at 1. rewrite H1.
  unfold bind at 1. rewrite H2.
  unfold bind at 1. rewrite H3.
  unfold bind at 1. rewrite H4.
  reflexivity.
Qed.

(** C9. For every list of records [insert_records_one_by_one] returns (it
    raises nothing, whatever the inserts do), its result has status
    "completed", and its error entries are the first ten failures in input
    order, each with the 1-based position of the record whose insert
    raised and the text of that exception. *)
Theorem one_by_one_never_raises {S} (W : World S) self records sys :
  let os := outcomes W (table_name self) records (ext sys) in
  let fs := failures W (table_name self) records (ext sys) in
  (exists sys' d,
     insert_records_one_by_one W self records sys = (sys', Ok d) /\
     field "status" d = Some (PStr "completed") /\
     field "errors" d = Some (PList (take 10 (map error_entry fs)))) /\
  (forall i e, In (i, e) fs <-> 1 <= i /\ os !! Z.to_nat (i - 1) = Some (Raise e)) /\
  StronglySorted Z.lt (map fst fs).
Proof.
  intros os fs. split; [|split].
  - destruct (insert_records_one_by_one_spec W self records sys) as (sys' & Hrun & _).
    exists sys'. eexists. split; [exact Hrun|]. split; reflexivity.
  - intros i e. apply failures_from_lookup.
  - apply failures_from_sorted.
Qed.

(** C10. When the bulk insert does not raise, [insert_records] of a handler
    built by [__init__] returns status "success", the table name
    "test_cleaning" and, as records_inserted, the length of the input list:
    the result is the same whatever the store answered. *)
Theorem bulk_success_counts_the_input {S} (W : World S)
        sys0 sys1 self records sys s' response :
  Database.init W sys0 = (sys1, Ok self) ->
  insert_execute W (table_name self) (Rows records) (ext sys) = (s', Ok response) ->
  insert_records W self records sys =
    ({| ext := s'; held := held sys;
        trace := (trace sys ++ [InsertExecute "test_cleaning" (Rows records)])%list |},
     Ok (PDict [ ("status", PStr "success");
                 ("records_inserted", PInt (Z.of_nat (length records)));
                 ("table", PStr "test_cleaning") ])).
Proof.
  intros Hinit Hins. apply init_table_name in Hinit.
  unfold insert_records, try_except, bind, table_insert_execute, external.
  rewrite Hins. unfold ret. by rewrite Hinit.
Qed.

Lemma bulk_success_counts_the_input_witness :
  insert_records all_well
    {| supabase_url := "https://example.supabase.co"; supabase_key := "service-key";
       table_name := "test_cleaning" |}
    (to_dict_records three_rows) boot =
    ({| ext := tt; held := [];
        trace := [InsertExecute "test_cleaning" (Rows (to_dict_records three_rows))] |},
     Ok (PDict [ ("status", PStr "success");
                 ("records_inserted", PInt 3);
                 ("table", PStr "test_cleaning") ])).
Proof.
  apply (bulk_success_counts_the_input all_well boot
           {| ext := tt; held := [];
              trace := [CreateClient "https://example.supabase.co" "service-key"] |}
           _ (to_dict_records three_rows) boot tt
           (stored (Rows (to_dict_records three_rows))));
    reflexivity.
Defined.



(** C3. When the bulk insert raises, [insert_records] raises that same
    exception after the one call, with no result dictionary and so no
    counts of inserted or failed records; and /scrape-and-store, in any
    mode but one_by_one, answers HTTP 500. *)
Theorem bulk_failure_aborts {S} (W : World S) :
  (forall self records sys s' e,
     insert_execute W (table_name self) (Rows records) (ext sys) = (s', Raise e) ->
     insert_records W self records sys =
       ({| ext := s'; held := held sys;
           trace := (trace sys ++ [InsertExecute (table_name self) (Rows records)])%list |},
        Raise e)) /\
  (forall insert_method sys sys1 sys2 sys3 sys4 sys5 scraper file_path df db e,
     insert_method <> "one_by_one" ->
     Scraper.init W sys = (sys1, Ok scraper) ->
     Scraper.download_excel_file W scraper true sys1 = (sys2, Ok file_path) ->
     process_file W file_path sys2 = (sys3, Ok df) ->
     Database.init W sys3 = (sys4, Ok db) ->
     insert_records W db (to_dict_records df) sys4 = (sys5, Raise e) ->
     scrape_and_store W insert_method sys =
       (sys5, {| status_code := 500;
                 body := PDict [ ("detail",
                                  PDict [ ("error", PStr (str e));
                                          ("message", PStr "Failed to scrape and store data") ]) ] |})).
Proof.
  split.
  - intros self records sys s' e Hins.
    unfold insert_records, try_except, bind, table_insert_execute, external.
    by rewrite Hins.
  - intros insert_method sys sys1 sys2 sys3 sys4 sys5 scraper file_path df db e
      Hm H1 H2 H3 H4 H5.
    unfold scrape_and_store, handler.
    rewrite (pipeline_upto_insert W _ _ _ _ _ _ _ _ _ _ H1 H2 H3 H4).
    apply String.eqb_neq in Hm. rewrite Hm.
    unfold bind at 1. by rewrite H5.
Qed.

Lemma bulk_failure_aborts_witness :
  exists sys5,
    scrape_and_store bulk_refused "bulk" boot =
      (sys5,
       {| status_code := 500;
          body := PDict [ ("detail",
                           PDict [ ("error", PStr (str constraint_violation));
                                   ("message", PStr "Failed to scrape and store data") ]) ] |}).
Proof.
  eexists.
  eapply (proj2 (bulk_failure_aborts bulk_refused) "bulk" boot);
    [discriminate | vm_compute; reflexivity ..].
Defined.

End StoreClaims.

(** ** Proofs: the download step *)

Module ScraperClaims.
Import Scraper Fixtures MoreFixtures.

(** Releasing the resource that was acquired last gives back the list as
    it was before. *)
Lemma drop_last_snoc (r : resource) (l : list resource) :
  drop_last r (l ++ [r]) = l.
Proof.
  unfold drop_last. rewrite rev_app_distr. cbn.
  replace (resource_eqb r r) with true by (by destruct r).
  apply rev_involutive.
Qed.

(** Releasing context, browser and playwright undoes their acquisition. *)
Lemma release_three (l : list resource) :
  drop_last Playwright
    (drop_last Browser
       (drop_last BrowserContext (l ++ [Playwright; Browser; BrowserContext]))) = l.
Proof.
  change (l ++ [Playwright; Browser; BrowserContext])%list
    with (l ++ [Playwright] ++ [Browser] ++ [BrowserContext])%list.
  rewrite !app_assoc. by rewrite !drop_last_snoc.
Qed.

(** A set-up that went through has acquired the three resources. *)
Lemma setup_browser_acquires {S} (W : World S) headless sys sys1 :
  setup_browser W headless sys = (sys1, Ok tt) ->
  held sys1 = (held sys ++ [Playwright; Browser; BrowserContext])%list.
Proof.
  unfold setup_browser, bind, external, acquire. cbn [ext held trace].
  destruct (sync_playwright_start W (ext sys)) as [s1 [[]|e1]];
    cbn [ext held trace]; [|discriminate].
  destruct (chromium_launch W headless s1) as [s2 [[]|e2]];
    cbn [ext held trace]; [|discriminate].
  destruct (new_context W s2) as [s3 [[]|e3]];
    cbn [ext held trace]; [|discriminate].
  destruct (new_page W s3) as [s4 [[]|e4]];
    cbn [ext held trace]; [|discriminate].
  destruct (set_default_timeout W 60000 s4) as [s5 r5].
  intros H. injection H as <- _. cbn [held]. by rewrite <- !app_assoc.
Qed.

(** The steps of the download neither acquire nor release. *)
Lemma steps_keep_held {S} (W : World S) self sys :
  held (download_steps W self sys).1 = held sys.
Proof.
  unfold download_steps, bind, external, ret. cbn [ext held trace].
  destruct (goto W (url self) (ext sys)) as [s1 [[]|e1]]; cbn [ext held trace fst]; [|done].
  destruct (wait_for W _ s1) as [s2 [[]|e2]]; cbn [ext held trace fst]; [|done].
  destruct (expect_download_click W _ s2) as [s3 [f|e3]]; cbn [ext held trace fst]; [|done].
  by destruct (save_as W _ s3) as [s4 [[]|e4]].
Qed.

(** When the three closing calls go through, the [finally] block releases
    the context, the browser and playwright that were acquired last. *)
Lemma cleanup_releases {S} (W : World S) sys :
  (forall s, (context_close W s).2 = Ok tt) ->
  (forall s, (browser_close W s).2 = Ok tt) ->
  (forall s, (playwright_stop W s).2 = Ok tt) ->
  exists sys',
    cleanup W sys = (sys', Ok tt) /\
    held sys' =
      drop_last Playwright (drop_last Browser (drop_last BrowserContext (held sys))) /\
    trace sys' = (trace sys ++ [ContextClose; BrowserClose; PlaywrightStop])%list.
Proof.
  intros Hc Hb Hp. unfold cleanup, bind, external, release. cbn [ext held trace].
  pose proof (Hc (ext sys)) as H1.
  destruct (context_close W (ext sys)) as [s1 r1]. cbn in H1. subst r1.
  cbn [ext held trace].
  pose proof (Hb s1) as H2.
  destruct (browser_close W s1) as [s2 r2]. cbn in H2. subst r2.
  cbn [ext held trace].
  pose proof (Hp s2) as H3.
  destruct (playwright_stop W s2) as [s3 r3]. cbn in H3. subst r3.
  cbn [ext held trace].
  eexists. split; [reflexivity|]. cbn [held trace]. split; [done|].
  by rewrite <- !app_assoc.
Qed.

(** X22. What the [try]/[finally] does give: once the set-up has returned,
    and when the three closing calls go through, whatever the steps of the
    download do (a path or an exception) is followed by exactly the three
    closing calls, the process holds what it held before the call, a
    resource leaked earlier included, and the outcome of the function is
    that of the steps. *)
Theorem cleanup_follows_the_steps {S} (W : World S) self headless sys sys1 :
  setup_browser W headless sys = (sys1, Ok tt) ->
  (forall s, (context_close W s).2 = Ok tt) ->
  (forall s, (browser_close W s).2 = Ok tt) ->
  (forall s, (playwright_stop W s).2 = Ok tt) ->
  exists sys2 sys3 r,
    download_steps W self sys1 = (sys2, r) /\
    download_excel_file W self headless sys = (sys3, r) /\
    held sys3 = held sys /\
    trace sys3 = (trace sys2 ++ [ContextClose; BrowserClose; PlaywrightStop])%list.
Proof.
  intros Hsetup Hc Hb Hp.
  pose proof (steps_keep_held W self sys1) as Hkeep.
  destruct (download_steps W self sys1) as [sys2 r] eqn:Hsteps. cbn [fst] in Hkeep.
  destruct (cleanup_releases W sys2 Hc Hb Hp) as (sys3 & Hclean & Hheld & Htrace).
  exists sys2, sys3, r. split; [done|]. split; [|split; [|done]].
  - unfold download_excel_file. unfold bind at 1. rewrite Hsetup.
    unfold try_finally, try_except. rewrite Hsteps.
    destruct r as [file_path|e]; unfold raise; by rewrite Hclean.
  - rewrite Hheld, Hkeep, (setup_browser_acquires W headless sys sys1 Hsetup).
    apply release_three.
Qed.

Lemma cleanup_follows_the_steps_witness :
  exists sys2 sys3 r,
    download_steps page_times_out
      {| download_dir := "downloads"; url := "https://www.nj.gov/dobi/pipinfo/aicrapg.htm" |}
      (setup_browser page_times_out true
         {| ext := tt; held := [Playwright]; trace := [] |}).1 = (sys2, r) /\
    download_excel_file page_times_out
      {| download_dir := "downloads"; url := "https://www.nj.gov/dobi/pipinfo/aicrapg.htm" |}
      true {| ext := tt; held := [Playwright]; trace := [] |} = (sys3, r) /\
    held sys3 = [Playwright] /\
    trace sys3 = (trace sys2 ++ [ContextClose; BrowserClose; PlaywrightStop])%list.
Proof.
  apply (cleanup_follows_the_steps page_times_out
           {| download_dir := "downloads";
              url := "https://www.nj.gov/dobi/pipinfo/aicrapg.htm" |}
           true {| ext := tt; held := [Playwright]; trace := [] |}
           (setup_browser page_times_out true
              {| ext := tt; held := [Playwright]; trace := [] |}).1);
    [reflexivity | by intros [] ..].
Defined.

(** C4 (the code at the failing inputs). [setup_browser] is called before
    the [try]: when the browser launch raises after playwright has started,
    [download_excel_file] raises the launch error, makes no closing call and
    leaves playwright held. The closing calls of the [finally] block are
    not guarded: when the navigation times out and [context.close] then
    raises, the function raises the error of the close and not the timeout,
    calls neither [browser.close] nor [playwright.stop], and leaves the
    three resources held. *)
Theorem download_leaves_resources_held :
  download_excel_file no_browser
    {| download_dir := "downloads"; url := "https://www.nj.gov/dobi/pipinfo/aicrapg.htm" |}
    true boot =
    ({| ext := tt;
        held := [Playwright];
        trace := [SyncPlaywrightStart; ChromiumLaunch true] |},
     Raise launch_error) /\
  download_excel_file timeout_and_close_fails
    {| download_dir := "downloads"; url := "https://www.nj.gov/dobi/pipinfo/aicrapg.htm" |}
    true boot =
    ({| ext := tt;
        held := [Playwright; Browser; BrowserContext];
        trace := [ SyncPlaywrightStart; ChromiumLaunch true; NewContext true; NewPage;
                   SetDefaultTimeout 60000;
                   Goto "https://www.nj.gov/dobi/pipinfo/aicrapg.htm" "networkidle";
                   ContextClose ] |},
     Raise closed_error).
Proof. split; vm_compute; reflexivity. Qed.

End ScraperClaims.

(** ** Proofs: credentials and failure responses *)

Module EndpointClaims.
Import Database Main EndpointSpec Fixtures.

(** A missing credential makes the guard of [__init__] true. *)
Lemma missing_guard {S} (W : World S) :
  credentials_missing W ->
  py_not (getenv W "SUPABASE_URL") || py_not (getenv W "SUPABASE_KEY") = true.
Proof.
  unfold credentials_missing, absent_or_empty, getenv.
  intros [[H|H]|[H|H]]; rewrite H; cbn; by rewrite ?orb_true_r.
Qed.

(** C5 (as amended). If either store credential is absent or empty in the
    environment, constructing the store handler raises the ValueError
    before any store client is created and before any call leaves the
    program. The handler is constructed inside the request handlers, so the
    error fails the request that needed it (HTTP 500); the application
    itself is built without reading the environment. *)
Theorem missing_credentials_fail_the_request {S} (W : World S) sys :
  credentials_missing W ->
  Database.init W sys = (sys, Raise missing_credentials_error) /\
  test_supabase W sys =
    (sys, {| status_code := 500;
             body := PDict [("detail", PStr (str missing_credentials_error))] |}) /\
  exists a, app = Ok a.
Proof.
  intros Hmiss. apply missing_guard in Hmiss.
  assert (Hinit : Database.init W sys = (sys, Raise missing_credentials_error)).
  { unfold Database.init. by rewrite Hmiss. }
  split; [exact Hinit|]. split.
  - unfold test_supabase, handler, test_supabase_pipeline. unfold bind. by rewrite Hinit.
  - by eexists.
Qed.

Lemma missing_credentials_fail_the_request_witness :
  Database.init empty_url boot = (boot, Raise missing_credentials_error) /\
  test_supabase empty_url boot =
    (boot, {| status_code := 500;
              body := PDict [("detail", PStr (str missing_credentials_error))] |}) /\
  exists a, app = Ok a.
Proof.
  apply (missing_credentials_fail_the_request empty_url boot).
  left. right. reflexivity.
Defined.

(** C5 (as worded) fails: with no credentials in the environment the
    application is still built, so the error is not one of start-up. *)
Lemma missing_credentials_not_fatal_counterexample :
  ~ fatal_at_startup no_credentials boot.
Proof.
  intros H. destruct H as (_ & e & He).
  - left. left. reflexivity.
  - discriminate He.
Qed.

(** C6 (as amended). For every exception raised inside the pipeline of an
    endpoint, the endpoint answers HTTP 500 with a JSON body that has a
    detail field: for /scrape-and-store the detail is an object with the
    fields error and message; for /test-download and /test-supabase it is
    the text of the exception. *)
Theorem pipeline_failure_is_http_500 {S} (W : World S) req p sys sys' e :
  pipeline_of W req = Some p ->
  p sys = (sys', Raise e) ->
  dispatch W req sys =
    (sys', {| status_code := 500;
              body := PDict [("detail", failure_detail req e)] |}).
Proof.
  intros Hp Hrun.
  destruct req; cbn in Hp; try discriminate; injection Hp as <-;
    cbn [dispatch]; unfold scrape_and_store, test_download, test_supabase, handler;
    by rewrite Hrun.
Qed.

Lemma pipeline_failure_is_http_500_witness :
  dispatch page_times_out GetTestDownload boot =
    ((test_download_pipeline page_times_out boot).1,
     {| status_code := 500;
        body := PDict [("detail", failure_detail GetTestDownload timeout_error)] |}).
Proof.
  apply (pipeline_failure_is_http_500 page_times_out GetTestDownload
           (test_download_pipeline page_times_out) boot); vm_compute; reflexivity.
Defined.

(** C6 (as worded) fails at /test-supabase: the body of its 500 carries the
    text of the exception and neither an error nor a message field. *)
Lemma error_and_message_counterexample :
  ~ error_and_message_on_failure no_credentials GetTestSupabase boot.
Proof.
  intros H.
  destruct (H (test_supabase_pipeline no_credentials) boot missing_credentials_error
              eq_refl eq_refl) as (_ & [Hf|(d & Hd & Hf)] & _).
  - vm_compute in Hf. by destruct Hf.
  - vm_compute in Hd. injection Hd as <-. vm_compute in Hf. by destruct Hf.
Qed.

End EndpointClaims.

(** ** Proofs: more on cleaning *)

Module CleaningExtras.
Import DataProcessor CleaningSpec CleaningProofs CoverageSpec Fixtures MoreFixtures.

Lemma positions_from_none k cols n :
  ~ In k cols -> positions_from n k cols = [].
Proof.
  revert n. induction cols as [|c cols IH]; intros n H; cbn; [done|].
  destruct (String.eqb_spec c k) as [->|Hne].
  - exfalso. apply H. by left.
  - apply IH. intros Hin. apply H. by right.
Qed.

Lemma get_indexer_for_missing h keys cols :
  In h keys -> ~ In h cols -> (get_indexer_for keys cols).2 <> [].
Proof.
  intros Hin Hno. induction keys as [|k keys IH]; [done|].
  cbn [get_indexer_for]. destruct (get_indexer_for keys cols) as [ix miss].
  destruct Hin as [->|Hin].
  - unfold positions. by rewrite (positions_from_none h cols 0 Hno).
  - specialize (IH Hin). cbn in IH. by destruct (positions k cols).
Qed.

(** The first position found for a label holds the cell under the label. *)
Lemma positions_from_first k cols :
  forall n j ps,
    positions_from n k cols = j :: ps ->
    (n <= j)%nat /\ forall r, under k cols r = nth (j - n) r Null.
Proof.
  induction cols as [|c cols IH]; intros n j ps H; cbn in H; [done|].
  destruct (String.eqb_spec c k) as [->|Hne].
  - injection H as <- _. split; [lia|]. intros r. rewrite Nat.sub_diag.
    destruct r as [|x r]; cbn; [done|]. by rewrite String.eqb_refl.
  - destruct (IH _ _ _ H) as [Hle Hu]. split; [lia|]. intros r.
    replace (j - n)%nat with (Datatypes.S (j - Datatypes.S n)) by lia.
    destruct r as [|x r]; cbn.
    + by destruct cols.
    + apply String.eqb_neq in Hne. rewrite Hne. apply Hu.
Qed.

Lemma filter_absorbs {A} (f g : A -> bool) (l : list A) :
  (forall x, g x = true -> f x = true) ->
  List.filter f (List.filter g l) = List.filter g l.
Proof.
  intros H. induction l as [|a l IH]; cbn; [done|].
  destruct (g a) eqn:Hg; [|done]. cbn. by rewrite (H a Hg), IH.
Qed.

Lemma notna_nth_exists i (r : list cell) :
  notna (nth i r Null) = true -> existsb notna r = true.
Proof.
  revert i. induction r as [|x r IH]; intros i H.
  - by destruct i.
  - destruct i as [|i]; cbn in *.
    + by rewrite H.
    + rewrite (IH i H). by rewrite orb_true_r.
Qed.

Lemma values_reset_index_rows df : values (reset_index df) = values df.
Proof.
  unfold values, reset_index; cbn [rows]. apply snd_zip.
  unfold range_index. rewrite !length_map, length_seq. lia.
Qed.

Lemma index_reset_index_rows df :
  index (reset_index df) = range_index (length (rows df)).
Proof.
  unfold index, reset_index; cbn [rows]. apply fst_zip.
  unfold range_index, values. rewrite !length_map, length_seq. lia.
Qed.

Lemma filter_length_le {A} (f : A -> bool) (l : list A) :
  (length (List.filter f l) <= length l)%nat.
Proof. induction l as [|a l IH]; cbn; [lia|]. destruct (f a); cbn; lia. Qed.

(** The shape of every successful run of [clean_data]. *)
Lemma clean_data_inv df out :
  clean_data df = Ok out ->
  exists ix i ps,
    get_indexer_for COLUMNS_TO_KEEP (columns df) = (ix, []) /\
    let cols' := map (lookup_label COLUMN_RENAME) (take_labels ix (columns df)) in
    let kept_rows :=
      List.filter (fun r : Z * list cell => forallb notna (take_cells (i :: ps) r.2))
        (map (fun r : Z * list cell => (r.1, take_cells ix r.2)) (rows df)) in
    positions "cpt_hcps" cols' = i :: ps /\
    dropna_all {| columns := cols'; rows := kept_rows |} =
      {| columns := cols'; rows := kept_rows |} /\
    out = reset_index {| columns := cols'; rows := kept_rows |}.
Proof.
  unfold clean_data, getitem.
  destruct (get_indexer_for COLUMNS_TO_KEEP (columns df)) as [ix [|m miss]];
    [|discriminate].
  cbn [rbind]. unfold dropna_subset, rename, take_columns. cbn [columns rows].
  cbn [get_indexer_for].
  destruct (positions "cpt_hcps" _) as [|i ps] eqn:Hpos; [discriminate|].
  rewrite app_nil_r. cbn [rbind]. intros H. injection H as <-.
  exists ix, i, ps. split; [done|]. cbn zeta. split; [done|].
  assert (Hd : forall l cols,
     dropna_all {| columns := cols;
                   rows := List.filter
                     (fun r : Z * list cell => forallb notna (take_cells (i :: ps) r.2)) l |}
     = {| columns := cols;
          rows := List.filter
                     (fun r : Z * list cell => forallb notna (take_cells (i :: ps) r.2)) l |}).
  { intros l cols. unfold dropna_all. cbn [columns rows]. f_equal.
    apply filter_absorbs. intros [z r]. cbn. intros H.
    apply andb_prop in H as [H _]. by apply (notna_nth_exists i). }
  split; [apply Hd | by rewrite Hd].
Qed.

(** X1. A frame that lacks one of the four required headers makes
    [clean_data] raise a [KeyError]; no frame is returned. *)
Theorem clean_data_missing_header df h :
  In h COLUMNS_TO_KEEP -> ~ In h (columns df) ->
  exists e, clean_data df = Raise e /\ exn_cls e = KeyError.
Proof.
  intros Hin Hno. unfold clean_data, getitem.
  pose proof (get_indexer_for_missing h _ _ Hin Hno) as Hm.
  destruct (get_indexer_for COLUMNS_TO_KEEP (columns df)) as [ix [|m miss]]; [done|].
  cbn. by eexists.
Qed.

Lemma clean_data_missing_header_witness :
  exists e, clean_data no_asc_column = Raise e /\ exn_cls e = KeyError.
Proof.
  apply (clean_data_missing_header no_asc_column "ASC Fees North").
  - cbn. tauto.
  - cbn. intros [H|[H|[H|[]]]]; discriminate H.
Defined.

(** X2. Whatever frame goes in, every row of a frame that [clean_data]
    returns has a value that is not null under cpt_hcps. *)
Theorem cleaned_rows_have_a_code df out :
  clean_data df = Ok out ->
  forall r, In r (values out) -> isna (under "cpt_hcps" (columns out) r) = false.
Proof.
  intros H r Hr. destruct (clean_data_inv df out H) as (ix & i & ps & _ & Hpos & _ & ->).
  rewrite values_reset_index_rows in Hr.
  cbn [columns reset_index].
  destruct (positions_from_first _ _ _ _ _ Hpos) as [_ Hu]. rewrite Hu, Nat.sub_0_r.
  unfold values in Hr. cbn [rows] in Hr. apply in_map_iff in Hr.
  destruct Hr as ([z r'] & <- & Hin). apply filter_In in Hin as [_ Hf].
  cbn in Hf. apply andb_prop in Hf as [Hf _]. cbn.
  unfold notna in Hf. by destruct (isna (nth i r' Null)).
Qed.

Lemma cleaned_rows_have_a_code_witness :
  List.Forall (fun r => isna (under "cpt_hcps" CLEANED_COLUMNS r) = false)
    (values (Frame CLEANED_COLUMNS
               [ (0, [ Str "99213"; Str "Office visit"; Num 150; Num 120 ]);
                 (1, [ Str "99214"; Null; Null; Null ]);
                 (2, [ Str "99215"; Str "Office visit, high"; Num 300; Num 200 ]) ])).
Proof.
  apply List.Forall_forall.
  apply (cleaned_rows_have_a_code five_rows
           (Frame CLEANED_COLUMNS
              [ (0, [ Str "99213"; Str "Office visit"; Num 150; Num 120 ]);
                (1, [ Str "99214"; Null; Null; Null ]);
                (2, [ Str "99215"; Str "Office visit, high"; Num 300; Num 200 ]) ])).
  reflexivity.
Defined.

(** X3. The [dropna(how='all')] step of [clean_data] never removes a row:
    after the rows without a code are gone, no row is empty throughout.
    [clean_data] equals the same pipeline without that step, on every
    frame. *)
Theorem second_dropna_is_idle df :
  clean_data df = clean_data_single_drop df.
Proof.
  destruct (clean_data df) as [out|e] eqn:H.
  - destruct (clean_data_inv df out H) as (ix & i & ps & Hix & Hpos & _ & ->).
    unfold clean_data_single_drop, getitem. rewrite Hix. cbn [rbind].
    unfold dropna_subset, rename, take_columns. cbn [columns rows get_indexer_for].
    cbn zeta in Hpos. rewrite Hpos, app_nil_r. reflexivity.
  - revert H. unfold clean_data, clean_data_single_drop, getitem.
    destruct (get_indexer_for COLUMNS_TO_KEEP (columns df)) as [ix [|m miss]];
      cbn [rbind]; [|by intros [= <-]].
    destruct (dropna_subset _ _); cbn [rbind]; [discriminate | by intros [= <-]].
Qed.

(** X4. A frame that [clean_data] returns is numbered 0..n-1, has no more
    rows than the input, and each of its rows has one cell per column. *)
Theorem cleaned_frame_is_well_formed df out :
  clean_data df = Ok out ->
  index out = range_index (length (rows out)) /\
  (length (rows out) <= length (rows df))%nat /\
  forall r, In r (values out) -> length r = length (columns out).
Proof.
  intros H. destruct (clean_data_inv df out H) as (ix & i & ps & _ & _ & _ & ->).
  assert (Hlen : forall X, length (rows (reset_index X)) = length (rows X)).
  { intros X. unfold reset_index, range_index, values. cbn [rows].
    rewrite length_zip, !length_map, length_seq. lia. }
  split; [|split].
  - rewrite index_reset_index_rows. by rewrite Hlen.
  - rewrite Hlen. cbn [rows].
    etransitivity; [apply filter_length_le|]. by rewrite length_map.
  - intros r Hr. rewrite values_reset_index_rows in Hr.
    unfold values in Hr. cbn [rows columns reset_index] in *.
    apply in_map_iff in Hr. destruct Hr as ([z r'] & <- & Hin).
    apply filter_In in Hin as [Hin _]. apply in_map_iff in Hin.
    destruct Hin as ([z' r''] & Heq & _). injection Heq as _ <-.
    cbn. unfold take_cells, take_labels. by rewrite !length_map.
Qed.

Lemma cleaned_frame_is_well_formed_witness :
  let out := Frame CLEANED_COLUMNS
               [ (0, [ Str "99213"; Str "Office visit"; Num 150; Num 120 ]);
                 (1, [ Str "99214"; Null; Null; Null ]);
                 (2, [ Str "99215"; Str "Office visit, high"; Num 300; Num 200 ]) ] in
  index out = range_index (length (rows out)) /\
  (length (rows out) <= length (rows five_rows))%nat /\
  forall r, In r (values out) -> length r = length (columns out).
Proof.
  apply (cleaned_frame_is_well_formed five_rows). reflexivity.
Defined.

(** The frame [clean_data] returns when each required header labels one
    column, written out. *)
Lemma clean_data_once_explicit df :
  (forall h, In h COLUMNS_TO_KEEP -> count_occ string_dec (columns df) h = 1%nat) ->
  clean_data df =
    Ok {| columns := CLEANED_COLUMNS;
          rows := zip (range_index (length (cleaned_rows df))) (cleaned_rows df) |}.
Proof.
  intros H. unfold clean_data, getitem.
  destruct (positions_from_once "CPT* HCPS" (columns df) 0) as (i1 & P1 & L1 & U1);
    [apply H; simpl; tauto|].
  destruct (positions_from_once "Description" (columns df) 0) as (i2 & P2 & L2 & U2);
    [apply H; simpl; tauto|].
  destruct (positions_from_once "Physicians' Fees      North" (columns df) 0)
    as (i3 & P3 & L3 & U3); [apply H; simpl; tauto|].
  destruct (positions_from_once "ASC Fees North" (columns df) 0) as (i4 & P4 & L4 & U4);
    [apply H; simpl; tauto|].
  unfold COLUMNS_TO_KEEP at 1. cbn [get_indexer_for]. unfold positions.
  rewrite P1, P2, P3, P4. cbn [Nat.add app rbind].
  unfold rename, take_columns, take_labels. cbn [columns rows map].
  rewrite L1, L2, L3, L4.
  unfold dropna_subset. cbn [columns rows].
  set (g := get_indexer_for _ _). vm_compute in g. subst g. cbn [rbind].
  set (F := dropna_all _).
  assert (V : values F = cleaned_rows df).
  { subst F. rewrite values_dropna_all. unfold values at 1. cbn [rows].
    rewrite (map_snd_filter (fun r => forallb notna (take_cells [0%nat] r))).
    rewrite filter_filter. unfold cleaned_rows, values.
    rewrite !map_map. cbn [snd].
    erewrite (map_ext (fun x => take_cells _ x.2) (fun x => projected df x.2)).
    - apply filter_ext. intros r. unfold kept. cbn. by rewrite andb_true_r.
    - intros [z r]. cbn. by rewrite U1, U2, U3, U4. }
  unfold reset_index. rewrite <- V. f_equal. f_equal.
  unfold values. by rewrite length_map.
Qed.

(** X5. When each required header labels one column, the result of
    [clean_data] depends only on the cells under the four headers: two
    frames that agree there, whatever their other columns, column order and
    index labels, are cleaned to the same frame. *)
Theorem clean_data_reads_only_the_four_columns df1 df2 :
  (forall h, In h COLUMNS_TO_KEEP -> count_occ string_dec (columns df1) h = 1%nat) ->
  (forall h, In h COLUMNS_TO_KEEP -> count_occ string_dec (columns df2) h = 1%nat) ->
  map (projected df1) (values df1) = map (projected df2) (values df2) ->
  clean_data df1 = clean_data df2.
Proof.
  intros H1 H2 Hsame.
  rewrite (clean_data_once_explicit df1 H1), (clean_data_once_explicit df2 H2).
  unfold cleaned_rows. by rewrite Hsame.
Qed.

(** The fee rows of [three_rows] in a sheet with another column order, an
    extra column and other index labels. *)
Lemma clean_data_reads_only_the_four_columns_witness :
  clean_data three_rows =
  clean_data
    {| columns := [ "ASC Fees North"; "Mod"; "Description"; "CPT* HCPS";
                    "Physicians' Fees      North" ];
       rows := [ (7, [ Str "120.00"; Null; Str "Office visit"; Str "99213"; Str "150.00" ]);
                 (8, [ Str "1.00"; Str "26"; Str "Unlisted"; Str "00000"; Str "1.00" ]);
                 (9, [ Str "160.00"; Null; Str "Office visit, long"; Str "99214";
                       Str "210.00" ]) ] |}.
Proof.
  apply clean_data_reads_only_the_four_columns.
  - intros h Hin. simpl in Hin. destruct Hin as [<-|[<-|[<-|[<-|[]]]]]; reflexivity.
  - intros h Hin. simpl in Hin. destruct Hin as [<-|[<-|[<-|[<-|[]]]]]; reflexivity.
  - reflexivity.
Defined.

(** X6. When each required header labels one column, every record that
    [to_dict('records')] makes of the cleaned frame has exactly the four keys
    cpt_hcps, description, physicians_fees_north, asc_fees_north, and its
    cpt_hcps is not null. *)
Theorem cleaned_records_have_four_keys df out :
  (forall h, In h COLUMNS_TO_KEEP -> count_occ string_dec (columns df) h = 1%nat) ->
  clean_data df = Ok out ->
  forall rec, In rec (to_dict_records out) ->
    exists code description physicians asc,
      rec = fee_record code description physicians asc /\ code <> Null.
Proof.
  intros H Hout rec Hrec. rewrite (clean_data_once_explicit df H) in Hout.
  injection Hout as <-. unfold to_dict_records, values in Hrec. cbn [columns rows] in Hrec.
  rewrite snd_zip in Hrec
    by (unfold range_index; rewrite !length_map, length_seq; lia).
  apply in_map_iff in Hrec. destruct Hrec as (r & <- & Hr).
  unfold cleaned_rows in Hr. apply filter_In in Hr as [Hr Hk].
  apply in_map_iff in Hr. destruct Hr as (r0 & <- & _).
  unfold projected, COLUMNS_TO_KEEP in *. cbn [map] in *.
  exists (under "CPT* HCPS" (columns df) r0), (under "Description" (columns df) r0),
    (under "Physicians' Fees      North" (columns df) r0),
    (under "ASC Fees North" (columns df) r0).
  split; [reflexivity|].
  unfold kept in Hk. cbn [nth] in Hk. apply andb_prop in Hk as [Hk _].
  intros Hnull. rewrite Hnull in Hk. discriminate Hk.
Qed.

Lemma cleaned_records_have_four_keys_witness :
  List.Forall
    (fun rec => exists code description physicians asc,
                  rec = fee_record code description physicians asc /\ code <> Null)
    (to_dict_records
       (Frame CLEANED_COLUMNS
          [ (0, [ Str "99213"; Str "Office visit"; Num 150; Num 120 ]);
            (1, [ Str "99214"; Null; Null; Null ]);
            (2, [ Str "99215"; Str "Office visit, high"; Num 300; Num 200 ]) ])).
Proof.
  apply List.Forall_forall.
  apply (cleaned_records_have_four_keys five_rows); [|reflexivity].
  intros h Hin. simpl in Hin. destruct Hin as [<-|[<-|[<-|[<-|[]]]]]; reflexivity.
Defined.

End CleaningExtras.

(** ** Proofs: more on the download step *)

Module ScraperExtras.
Import Scraper ScraperClaims CoverageSpec Fixtures MoreFixtures.

(** X7. [setup_browser] runs outside the [try]: when the browser launch
    raises after playwright has started, [download_excel_file] raises that
    exception without a single closing call, and playwright stays held. *)
Theorem launch_failure_skips_the_cleanup {S} (W : World S) self headless sys s1 s2 e :
  sync_playwright_start W (ext sys) = (s1, Ok tt) ->
  chromium_launch W headless s1 = (s2, Raise e) ->
  download_excel_file W self headless sys =
    ({| ext := s2;
        held := (held sys ++ [Playwright])%list;
        trace := (trace sys ++ [SyncPlaywrightStart; ChromiumLaunch headless])%list |},
     Raise e).
Proof.
  intros H1 H2. unfold download_excel_file, setup_browser, bind, external, acquire.
  cbn [ext held trace]. rewrite H1. cbn [ext held trace]. rewrite H2.
  cbn [ext held trace]. by rewrite <- app_assoc.
Qed.

Lemma launch_failure_skips_the_cleanup_witness :
  download_excel_file no_browser
    {| download_dir := "downloads"; url := "https://www.nj.gov/dobi/pipinfo/aicrapg.htm" |}
    true boot =
    ({| ext := tt; held := [Playwright];
        trace := [SyncPlaywrightStart; ChromiumLaunch true] |},
     Raise launch_error).
Proof.
  apply (launch_failure_skips_the_cleanup no_browser _ true boot tt tt launch_error);
    reflexivity.
Defined.

(** X8. When [download_excel_file] returns a path, the run went through
    every step: after the navigation and the wait, the click on the Excel
    link answered with a suggested file name; the returned path is the
    download directory joined, as [pathlib] joins, with that very name; the
    file was saved at that very path; and the process holds what it held
    before the call. *)
Theorem returned_path_is_the_saved_file {S} (W : World S) self headless sys sys' p :
  download_excel_file W self headless sys = (sys', Ok p) ->
  (exists sys1 s1 s2 s3 s4 filename,
     setup_browser W headless sys = (sys1, Ok tt) /\
     goto W (url self) (ext sys1) = (s1, Ok tt) /\
     wait_for W "a[href$='ex1_130104.xls']" s1 = (s2, Ok tt) /\
     expect_download_click W "a[href$='ex1_130104.xls']" s2 = (s3, Ok filename) /\
     p = path_join (download_dir self) filename /\
     save_as W p s3 = (s4, Ok tt)) /\
  In (SaveAs p) (trace sys') /\
  held sys' = held sys.
Proof.
  unfold download_excel_file. unfold bind at 1.
  destruct (setup_browser W headless sys) as [sys1 [[]|e0]] eqn:Hsetup; [|discriminate].
  unfold try_finally, try_except.
  pose proof (steps_keep_held W self sys1) as Hkeep.
  assert (Hsteps : forall sys2 q,
            download_steps W self sys1 = (sys2, Ok q) ->
            (exists s1 s2 s3 s4 filename,
               goto W (url self) (ext sys1) = (s1, Ok tt) /\
               wait_for W "a[href$='ex1_130104.xls']" s1 = (s2, Ok tt) /\
               expect_download_click W "a[href$='ex1_130104.xls']" s2 = (s3, Ok filename) /\
               q = path_join (download_dir self) filename /\
               save_as W q s3 = (s4, Ok tt)) /\
            In (SaveAs q) (trace sys2)).
  { unfold download_steps, bind, external, ret. cbn [ext held trace].
    destruct (goto W (url self) (ext sys1)) as [s1 [[]|e1]];
      cbn [ext held trace]; [|discriminate].
    destruct (wait_for W _ s1) as [s2 [[]|e2]] eqn:Hwait;
      cbn [ext held trace]; [|discriminate].
    destruct (expect_download_click W _ s2) as [s3 [f|e3]] eqn:Hclick;
      cbn [ext held trace]; [|discriminate].
    destruct (save_as W _ s3) as [s4 [[]|e4]] eqn:Hsave; [|discriminate].
    intros sys2 q H. injection H as <- <-. split.
    - by exists s1, s2, s3, s4, f.
    - cbn [trace]. apply in_or_app. right. by left. }
  destruct (download_steps W self sys1) as [sys2 [q|e]]; cbn [fst] in *.
  - destruct (Hsteps sys2 q eq_refl) as [(s1 & s2 & s3 & s4 & f & Hrun) Hsaved].
    unfold cleanup, bind, external, release. cbn [ext held trace].
    destruct (context_close W (ext sys2)) as [s5 [[]|e5]];
      cbn [ext held trace]; [|discriminate].
    destruct (browser_close W s5) as [s6 [[]|e6]]; cbn [ext held trace]; [|discriminate].
    destruct (playwright_stop W s6) as [s7 [[]|e7]]; cbn [ext held trace]; [|discriminate].
    intros H. injection H as <- <-. cbn [trace held]. split; [|split].
    + by exists sys1, s1, s2, s3, s4, f.
    + rewrite <- !app_assoc. apply in_or_app. by left.
    + rewrite Hkeep, (setup_browser_acquires W headless sys sys1 Hsetup).
      apply release_three.
  - unfold raise. by destruct (cleanup W sys2) as [sys3 [[]|e']].
Qed.

Lemma returned_path_is_the_saved_file_witness :
  (exists sys1 s1 s2 s3 s4 filename,
     setup_browser all_well true boot = (sys1, Ok tt) /\
     goto all_well "https://www.nj.gov/dobi/pipinfo/aicrapg.htm" (ext sys1) = (s1, Ok tt) /\
     wait_for all_well "a[href$='ex1_130104.xls']" s1 = (s2, Ok tt) /\
     expect_download_click all_well "a[href$='ex1_130104.xls']" s2 = (s3, Ok filename) /\
     "downloads/ex1_130104.xls" = path_join "downloads" filename /\
     save_as all_well "downloads/ex1_130104.xls" s3 = (s4, Ok tt)) /\
  In (SaveAs "downloads/ex1_130104.xls")
     (trace (download_excel_file all_well
               {| download_dir := "downloads";
                  url := "https://www.nj.gov/dobi/pipinfo/aicrapg.htm" |} true boot).1) /\
  held (download_excel_file all_well
          {| download_dir := "downloads";
             url := "https://www.nj.gov/dobi/pipinfo/aicrapg.htm" |} true boot).1 = held boot.
Proof.
  apply (returned_path_is_the_saved_file all_well
           {| download_dir := "downloads";
              url := "https://www.nj.gov/dobi/pipinfo/aicrapg.htm" |} true boot).
  vm_compute. reflexivity.
Defined.

(** X9. There is no retry and no later step after a failure: when the
    navigation raises (and the closing calls go through), the only calls
    after the set-up are the navigation and the three closing calls, and the
    exception of the navigation is what [download_excel_file] raises; the
    process holds what it held before the call. *)
Theorem navigation_failure_stops_the_steps {S} (W : World S) self headless sys sys1 s' e :
  setup_browser W headless sys = (sys1, Ok tt) ->
  goto W (url self) (ext sys1) = (s', Raise e) ->
  (forall s, (context_close W s).2 = Ok tt) ->
  (forall s, (browser_close W s).2 = Ok tt) ->
  (forall s, (playwright_stop W s).2 = Ok tt) ->
  exists sys',
    download_excel_file W self headless sys = (sys', Raise e) /\
    held sys' = held sys /\
    trace sys' = (trace sys1 ++ [ Goto (url self) "networkidle";
                                  ContextClose; BrowserClose; PlaywrightStop ])%list.
Proof.
  intros Hsetup Hgoto Hc Hb Hp.
  set (sys2 := {| ext := s'; held := held sys1;
                  trace := (trace sys1 ++ [Goto (url self) "networkidle"])%list |}).
  assert (Hsteps : download_steps W self sys1 = (sys2, Raise e)).
  { unfold download_steps, bind, external. by rewrite Hgoto. }
  destruct (cleanup_releases W sys2 Hc Hb Hp) as (sys3 & Hclean & Hheld & Htrace).
  exists sys3. split; [|split].
  - unfold download_excel_file. unfold bind at 1. rewrite Hsetup.
    unfold try_finally, try_except. rewrite Hsteps. unfold raise. by rewrite Hclean.
  - rewrite Hheld. subst sys2. cbn [held].
    rewrite (setup_browser_acquires W headless sys sys1 Hsetup). apply release_three.
  - rewrite Htrace. subst sys2. cbn [trace]. by rewrite <- app_assoc.
Qed.

Lemma navigation_failure_stops_the_steps_witness :
  exists sys',
    download_excel_file page_times_out
      {| download_dir := "downloads"; url := "https://www.nj.gov/dobi/pipinfo/aicrapg.htm" |}
      true boot = (sys', Raise timeout_error) /\
    held sys' = held boot /\
    trace sys' =
      (trace (setup_browser page_times_out true boot).1 ++
       [ Goto "https://www.nj.gov/dobi/pipinfo/aicrapg.htm" "networkidle";
         ContextClose; BrowserClose; PlaywrightStop ])%list.
Proof.
  apply (navigation_failure_stops_the_steps page_times_out
           {| download_dir := "downloads";
              url := "https://www.nj.gov/dobi/pipinfo/aicrapg.htm" |}
           true boot (setup_browser page_times_out true boot).1 tt timeout_error);
    [reflexivity | reflexivity | by intros [] ..].
Defined.

(** X10. The closing calls are not guarded one by one: when [context.close]
    raises, [download_excel_file] raises that exception whatever the steps
    did (a path or an earlier exception is lost), neither [browser.close]
    nor [playwright.stop] is called, and the three resources stay held. *)
Theorem close_failure_masks_the_outcome {S} (W : World S)
        self headless sys sys1 sys2 r s' e :
  setup_browser W headless sys = (sys1, Ok tt) ->
  download_steps W self sys1 = (sys2, r) ->
  context_close W (ext sys2) = (s', Raise e) ->
  download_excel_file W self headless sys =
    ({| ext := s';
        held := (held sys ++ [Playwright; Browser; BrowserContext])%list;
        trace := (trace sys2 ++ [ContextClose])%list |},
     Raise e).
Proof.
  intros Hsetup Hsteps Hclose.
  pose proof (steps_keep_held W self sys1) as Hheld. rewrite Hsteps in Hheld.
  cbn [fst] in Hheld.
  rewrite (setup_browser_acquires W headless sys sys1 Hsetup) in Hheld.
  unfold download_excel_file. unfold bind at 1. rewrite Hsetup.
  unfold try_finally, try_except. rewrite Hsteps.
  assert (Hclean : cleanup W sys2 =
            ({| ext := s'; held := held sys2;
                trace := (trace sys2 ++ [ContextClose])%list |}, Raise e)).
  { unfold cleanup, bind, external. by rewrite Hclose. }
  destruct r as [p|e0]; unfold raise; rewrite Hclean; by rewrite Hheld.
Qed.

Lemma close_failure_masks_the_outcome_witness :
  download_excel_file close_fails
    {| download_dir := "downloads"; url := "https://www.nj.gov/dobi/pipinfo/aicrapg.htm" |}
    true boot =
    ({| ext := tt;
        held := [Playwright; Browser; BrowserContext];
        trace := (trace (download_steps close_fails
                           {| download_dir := "downloads";
                              url := "https://www.nj.gov/dobi/pipinfo/aicrapg.htm" |}
                           (setup_browser close_fails true boot).1).1
                  ++ [ContextClose])%list |},
     Raise closed_error).
Proof.
  apply (close_failure_masks_the_outcome close_fails
           {| download_dir := "downloads";
              url := "https://www.nj.gov/dobi/pipinfo/aicrapg.htm" |}
           true boot (setup_browser close_fails true boot).1
           (download_steps close_fails
              {| download_dir := "downloads";
                 url := "https://www.nj.gov/dobi/pipinfo/aicrapg.htm" |}
              (setup_browser close_fails true boot).1).1
           (Ok "downloads/ex1_130104.xls") tt closed_error);
    reflexivity.
Defined.

End ScraperExtras.

(** ** Proofs: more on the store handler *)

Module StoreExtras.
Import Database InsertSpec InsertProofs FailureProofs CoverageSpec Fixtures MoreFixtures.

(** X11. With both credentials set and not empty, [__init__] makes exactly
    one call, [create_client] with the URL and the key of the environment;
    it returns a handler for the table test_cleaning when the client is
    built, and raises the exception of [create_client] when it is not. *)
Theorem init_builds_one_client {S} (W : World S) sys supabase_url supabase_key :
  environ W !! "SUPABASE_URL" = Some supabase_url -> supabase_url <> "" ->
  environ W !! "SUPABASE_KEY" = Some supabase_key -> supabase_key <> "" ->
  Database.init W sys =
    ({| ext := (create_client W supabase_url supabase_key (ext sys)).1;
        held := held sys;
        trace := (trace sys ++ [CreateClient supabase_url supabase_key])%list |},
     match (create_client W supabase_url supabase_key (ext sys)).2 with
     | Ok _ => Ok {| Database.supabase_url := supabase_url;
                     Database.supabase_key := supabase_key;
                     table_name := "test_cleaning" |}
     | Raise e => Raise e
     end).
Proof.
  intros Hu Hune Hk Hkne. unfold Database.init, getenv. rewrite Hu, Hk.
  apply String.eqb_neq in Hune, Hkne. cbn [py_not default]. rewrite Hune, Hkne.
  cbn [orb]. unfold bind, external, ret, id.
  by destruct (create_client W supabase_url supabase_key (ext sys)) as [s' [[]|e]].
Qed.

Lemma init_builds_one_client_witness :
  Database.init client_fails boot =
    ({| ext := tt; held := [];
        trace := [CreateClient "https://example.supabase.co" "service-key"] |},
     Raise connection_error).
Proof.
  apply (init_builds_one_client client_fails boot
           "https://example.supabase.co" "service-key");
    [reflexivity | discriminate | reflexivity | discriminate].
Defined.

(** X12. A failing insert does not stop the loop: whatever the store does,
    [insert_records_one_by_one] makes exactly one insert call per record,
    each with that single record and in input order, and the two counts it
    reports are not negative and add up to the number of records. *)
Theorem one_by_one_tries_every_record {S} (W : World S) self records sys :
  exists sys' d inserted failed,
    insert_records_one_by_one W self records sys = (sys', Ok d) /\
    trace sys' = (trace sys ++ row_calls (table_name self) records)%list /\
    held sys' = held sys /\
    field "records_inserted" d = Some (PInt inserted) /\
    field "records_failed" d = Some (PInt failed) /\
    0 <= inserted /\ 0 <= failed /\ inserted + failed = len records.
Proof.
  destruct (insert_records_one_by_one_spec W self records sys)
    as (sys' & Hrun & Hheld & Htrace).
  exists sys'. do 3 eexists. split; [exact Hrun|].
  split; [exact Htrace|]. split; [exact Hheld|]. split; [reflexivity|].
  split; [reflexivity|].
  pose proof (failures_from_length (outcomes W (table_name self) records (ext sys)) 1) as Hle.
  rewrite outcomes_length in Hle. unfold failures, len. lia.
Qed.

(** X13. The errors list is cut to ten entries but its being empty is
    exact: [insert_records_one_by_one] reports no error entry exactly when
    it reports every record as inserted. *)
Theorem no_error_entry_iff_all_inserted {S} (W : World S) self records sys :
  exists sys' d es,
    insert_records_one_by_one W self records sys = (sys', Ok d) /\
    field "errors" d = Some (PList es) /\
    (es = [] <-> field "records_inserted" d = Some (PInt (len records))).
Proof.
  destruct (insert_records_one_by_one_spec W self records sys) as (sys' & Hrun & _).
  exists sys'. do 2 eexists. split; [exact Hrun|]. split; [reflexivity|].
  cbn [field assoc String.eqb Ascii.eqb Bool.eqb].
  destruct (failures W (table_name self) records (ext sys)) as [|f fs].
  - cbn. unfold len at 2. cbn. by rewrite Z.sub_0_r.
  - split; [discriminate|]. intros H. injection H as H.
    unfold len in H. cbn [length] in H. lia.
Qed.

End StoreExtras.

(** ** Proofs: which calls a computation can make *)

Module TraceProofs.
Import Scraper Database Main CoverageSpec.

Section Rules.
Context {S : Type}.

Lemma emits_ret {A} (P : call -> Prop) (Q : A -> Prop) (a : A) :
  Q a -> emits (S := S) P Q (ret a).
Proof.
  intros Hq sys. split.
  - exists []. by rewrite app_nil_r.
  - cbn. by intros a' [= <-].
Qed.

Lemma emits_raise {A} (P : call -> Prop) (Q : A -> Prop) (e : exn) :
  emits (S := S) P Q (raise e).
Proof.
  intros sys. split; [|done]. exists []. by rewrite app_nil_r.
Qed.

(** A value computed without the world. *)
Lemma emits_pure {A} (P : call -> Prop) (Q : A -> Prop) (r : result A) :
  (forall a, r = Ok a -> Q a) ->
  emits (S := S) P Q (fun sys => (sys, r)).
Proof.
  intros Hq sys. split; [|exact Hq]. exists []. by rewrite app_nil_r.
Qed.

Lemma emits_external {A} (P : call -> Prop) (c : call) (op : S -> S * result A) :
  P c -> emits P (fun _ => True) (external c op).
Proof.
  intros Hp sys. unfold external. destruct (op (ext sys)) as [s' r]. split; [|done].
  exists [c]. split; [done|]. by constructor.
Qed.

Lemma emits_acquire (P : call -> Prop) (r : resource) :
  emits (S := S) P (fun _ => True) (acquire r).
Proof. intros sys. split; [|done]. exists []. by rewrite app_nil_r. Qed.

Lemma emits_release (P : call -> Prop) (r : resource) :
  emits (S := S) P (fun _ => True) (release r).
Proof. intros sys. split; [|done]. exists []. by rewrite app_nil_r. Qed.

Lemma emits_weaken {A} (P : call -> Prop) (Q Q' : A -> Prop) (m : M S A) :
  (forall a, Q a -> Q' a) -> emits P Q m -> emits P Q' m.
Proof.
  intros Hq Hm sys. destruct (Hm sys) as [Ht Hv]. split; [done|].
  intros a Ha. by apply Hq, Hv.
Qed.

Lemma emits_bind {A B} (P : call -> Prop) (Q : A -> Prop) (R : B -> Prop)
      (m : M S A) (k : A -> M S B) :
  emits P Q m -> (forall a, Q a -> emits P R (k a)) -> emits P R (bind m k).
Proof.
  intros Hm Hk sys. unfold bind. destruct (Hm sys) as [(l1 & Ht1 & Hf1) Hv].
  destruct (m sys) as [sys1 [a|e]]; cbn [fst snd] in *.
  - destruct (Hk a (Hv a eq_refl) sys1) as [(l2 & Ht2 & Hf2) Hr]. split; [|done].
    exists (l1 ++ l2)%list. rewrite Ht2, Ht1, app_assoc. split; [done|].
    by apply Forall_app.
  - split; [|done]. by exists l1.
Qed.

Lemma emits_try_except {A} (P : call -> Prop) (Q : A -> Prop)
      (m : M S A) (h : exn -> M S A) :
  emits P Q m -> (forall e, emits P Q (h e)) -> emits P Q (try_except m h).
Proof.
  intros Hm Hh sys. unfold try_except. destruct (Hm sys) as [(l1 & Ht1 & Hf1) Hv].
  destruct (m sys) as [sys1 [a|e]]; cbn [fst snd] in *.
  - split; [by exists l1 | done].
  - destruct (Hh e sys1) as [(l2 & Ht2 & Hf2) Hr]. split; [|done].
    exists (l1 ++ l2)%list. rewrite Ht2, Ht1, app_assoc. split; [done|].
    by apply Forall_app.
Qed.

Lemma emits_try_finally {A} (P : call -> Prop) (Q : A -> Prop)
      (m : M S A) (fin : M S unit) :
  emits P Q m -> emits P (fun _ => True) fin -> emits P Q (try_finally m fin).
Proof.
  intros Hm Hfin sys. unfold try_finally. destruct (Hm sys) as [(l1 & Ht1 & Hf1) Hv].
  destruct (m sys) as [sys1 r]; cbn [fst snd] in *.
  destruct (Hfin sys1) as [(l2 & Ht2 & Hf2) _].
  assert (Ht : exists l, trace (fin sys1).1 = (trace sys ++ l)%list /\ Forall P l).
  { exists (l1 ++ l2)%list. rewrite Ht2, Ht1, app_assoc. split; [done|].
    by apply Forall_app. }
  destruct (fin sys1) as [sys2 [[]|e]]; cbn [fst snd] in *; by split.
Qed.

(** An endpoint adds the calls of its pipeline and no other. *)
Lemma handler_emits (P : call -> Prop) (Q : Response -> Prop)
      (pipeline : M S Response) (detail : exn -> pyval) :
  emits P Q pipeline -> answers_emitting P (handler pipeline detail).
Proof.
  intros Hm sys. unfold handler. destruct (Hm sys) as [Ht _].
  by destruct (pipeline sys) as [sys' [resp|e]].
Qed.

End Rules.

Section Programs.
Context {S : Type} (W : World S).

Lemma scraper_init_emits (P : call -> Prop) :
  (forall c, is_file_call c -> P c) ->
  emits P (fun _ => True) (Scraper.init W).
Proof.
  intros HP. unfold Scraper.init.
  eapply emits_bind; [apply emits_external; by apply HP|].
  intros _ _. by apply emits_ret.
Qed.

(** [download_excel_file] talks to the browser only. *)
Lemma download_excel_file_emits (P : call -> Prop) self headless :
  (forall c, is_browser_call c -> P c) ->
  emits P (fun _ => True) (download_excel_file W self headless).
Proof.
  intros HP. unfold download_excel_file, setup_browser, download_steps, cleanup.
  repeat first
    [ apply emits_external; by apply HP
    | apply emits_acquire
    | apply emits_release
    | apply emits_raise
    | by apply emits_ret
    | apply emits_try_finally
    | apply emits_try_except; [|intros ?]
    | eapply emits_bind; [|intros ? _] ].
Qed.

Lemma read_excel_emits (P : call -> Prop) file_path :
  (forall c, is_file_call c -> P c) ->
  emits P (fun _ => True) (read_excel W file_path).
Proof.
  intros HP. unfold read_excel.
  apply emits_try_except; [apply emits_external; by apply HP | intros e; apply emits_raise].
Qed.

Lemma init_emits (P : call -> Prop) :
  (forall c, inserts_into_test_cleaning c -> P c) ->
  emits P (fun self => table_name self = "test_cleaning") (Database.init W).
Proof.
  intros HP. unfold Database.init. destruct (_ || _); [apply emits_raise|].
  eapply emits_bind; [apply emits_external; apply HP; exact I|].
  intros _ _. by apply emits_ret.
Qed.

Lemma insert_records_emits (P : call -> Prop) self records :
  (forall c, inserts_into_test_cleaning c -> P c) ->
  table_name self = "test_cleaning" ->
  emits P (fun _ => True) (insert_records W self records).
Proof.
  intros HP Ht. unfold insert_records, table_insert_execute.
  apply emits_try_except; [|intros e; apply emits_raise].
  eapply emits_bind; [apply emits_external; apply HP; exact Ht|].
  intros _ _. by apply emits_ret.
Qed.

Lemma insert_loop_emits (P : call -> Prop) self :
  (forall c, inserts_into_test_cleaning c -> P c) ->
  table_name self = "test_cleaning" ->
  forall items c, emits P (fun _ => True) (insert_loop W self items c).
Proof.
  intros HP Ht. induction items as [|[idx r] items IH]; intros c; cbn [insert_loop].
  - by apply emits_ret.
  - eapply emits_bind with (Q := fun _ => True); [|intros c' _; apply IH].
    unfold insert_one, table_insert_execute.
    apply emits_try_except; [|intros e; by apply emits_ret].
    eapply emits_bind; [apply emits_external; apply HP; exact Ht|].
    intros _ _. by apply emits_ret.
Qed.

Lemma insert_records_one_by_one_emits (P : call -> Prop) self records :
  (forall c, inserts_into_test_cleaning c -> P c) ->
  table_name self = "test_cleaning" ->
  emits P (fun _ => True) (insert_records_one_by_one W self records).
Proof.
  intros HP Ht. unfold insert_records_one_by_one.
  eapply emits_bind; [by apply insert_loop_emits|].
  intros c _. by apply emits_ret.
Qed.

(** X19. [test_download] never talks to the store: whatever happens, every
    call it makes is a browser call or a file call (no client is built,
    nothing is inserted). *)
Theorem test_download_never_calls_the_store :
  answers_emitting (fun c => is_browser_call c \/ is_file_call c) (test_download W).
Proof.
  unfold test_download. eapply handler_emits with (Q := fun _ => True).
  unfold test_download_pipeline.
  eapply emits_bind; [apply scraper_init_emits; tauto|]. intros scraper _.
  eapply emits_bind; [apply download_excel_file_emits; tauto|]. intros file_path _.
  eapply emits_bind; [apply read_excel_emits; tauto|]. intros df _.
  eapply emits_bind; [apply emits_external; by right|]. intros _ _.
  by apply emits_ret.
Qed.

(** X20. Every insert that [scrape_and_store] makes, in either mode and
    whatever happens, goes to the table test_cleaning. *)
Theorem scrape_and_store_inserts_into_test_cleaning insert_method :
  answers_emitting inserts_into_test_cleaning (scrape_and_store W insert_method).
Proof.
  unfold scrape_and_store. eapply handler_emits with (Q := fun _ => True).
  unfold scrape_and_store_pipeline.
  eapply emits_bind;
    [apply scraper_init_emits; by intros []|]. intros scraper _.
  eapply emits_bind;
    [apply download_excel_file_emits; by intros []|]. intros file_path _.
  eapply emits_bind with (Q := fun _ => True).
  { unfold process_file. eapply emits_bind; [apply read_excel_emits; by intros []|].
    intros df _. by apply emits_pure. }
  intros df_cleaned _.
  eapply emits_bind; [by apply init_emits|]. intros db_handler Htable.
  eapply emits_bind with (Q := fun _ => True).
  { destruct (String.eqb insert_method "one_by_one");
      [by apply insert_records_one_by_one_emits | by apply insert_records_emits]. }
  intros result _.
  eapply emits_bind; [by apply emits_external|]. intros _ _.
  eapply emits_bind with (Q := fun _ => True).
  { intros sys. unfold timestamp, utcnow.
    destruct (utcnow_isoformat W (ext sys)) as [s' t]. split; [|done].
    exists [UtcNow]. split; [done|]. by constructor. }
  intros t _. by apply emits_ret.
Qed.

End Programs.
End TraceProofs.

(** ** Proofs: more on the endpoints *)

Module EndpointExtras.
Import Database Main EndpointSpec StoreClaims EndpointClaims CoverageSpec Fixtures MoreFixtures.

(** X14. The insert method is not validated: any value other than
    "one_by_one" (say "bulk", the empty string or a misspelling) makes
    [scrape_and_store] take the bulk path. *)
Theorem any_other_method_is_bulk {S} (W : World S) insert_method sys :
  insert_method <> "one_by_one" ->
  scrape_and_store W insert_method sys = scrape_and_store W "bulk" sys.
Proof.
  intros Hm. apply String.eqb_neq in Hm.
  unfold scrape_and_store, scrape_and_store_pipeline. rewrite Hm.
  by change ("bulk" =? "one_by_one")%string with false.
Qed.

Lemma any_other_method_is_bulk_witness :
  scrape_and_store all_well "One_By_One" boot = scrape_and_store all_well "bulk" boot.
Proof. apply any_other_method_is_bulk. discriminate. Defined.

(** X15. A downloaded sheet that lacks one of the four required headers
    makes [clean_data] raise a [KeyError], and [scrape_and_store] answers
    HTTP 500 with the text of that very exception under detail.error, right
    after the sheet was read: no store handler is built and nothing is
    inserted. *)
Theorem missing_header_is_http_500 {S} (W : World S) insert_method
        sys sys1 sys2 sys3 scraper file_path df h :
  Scraper.init W sys = (sys1, Ok scraper) ->
  Scraper.download_excel_file W scraper true sys1 = (sys2, Ok file_path) ->
  read_excel W file_path sys2 = (sys3, Ok df) ->
  In h DataProcessor.COLUMNS_TO_KEEP -> ~ In h (columns df) ->
  exists e,
    DataProcessor.clean_data df = Raise e /\
    exn_cls e = KeyError /\
    scrape_and_store W insert_method sys =
      (sys3, {| status_code := 500;
                body := PDict [ ("detail",
                                 PDict [ ("error", PStr (str e));
                                         ("message", PStr "Failed to scrape and store data") ]) ] |}).
Proof.
  intros H1 H2 H3 Hin Hno.
  assert (Hclean : exists e, exn_cls e = KeyError /\ DataProcessor.clean_data df = Raise e).
  { unfold DataProcessor.clean_data, getitem.
    pose proof (CleaningExtras.get_indexer_for_missing h _ _ Hin Hno) as Hm.
    destruct (get_indexer_for _ _) as [ix [|m miss]]; [done|]. cbn.
    eexists. split; [|reflexivity]. reflexivity. }
  destruct Hclean as (e & Hcls & Hclean). exists e. split; [done|]. split; [done|].
  unfold scrape_and_store, handler, scrape_and_store_pipeline.
  unfold bind at 1. rewrite H1. unfold bind at 1. rewrite H2.
  unfold bind at 1. unfold process_file. unfold bind at 1. rewrite H3.
  by rewrite Hclean.
Qed.

Lemma missing_header_is_http_500_witness :
  exists e,
    DataProcessor.clean_data no_asc_column = Raise e /\
    exn_cls e = KeyError /\
    scrape_and_store incomplete_sheet "bulk" boot =
      ((read_excel incomplete_sheet "downloads/ex1_130104.xls"
          (Scraper.download_excel_file incomplete_sheet
             {| Scraper.download_dir := "downloads";
                Scraper.url := "https://www.nj.gov/dobi/pipinfo/aicrapg.htm" |} true
             (Scraper.init incomplete_sheet boot).1).1).1,
       {| status_code := 500;
          body := PDict [ ("detail",
                           PDict [ ("error", PStr (str e));
                                   ("message", PStr "Failed to scrape and store data") ]) ] |}).
Proof.
  apply (missing_header_is_http_500 incomplete_sheet "bulk" boot
           (Scraper.init incomplete_sheet boot).1
           (Scraper.download_excel_file incomplete_sheet
              {| Scraper.download_dir := "downloads";
                 Scraper.url := "https://www.nj.gov/dobi/pipinfo/aicrapg.htm" |} true
              (Scraper.init incomplete_sheet boot).1).1
           _
           {| Scraper.download_dir := "downloads";
              Scraper.url := "https://www.nj.gov/dobi/pipinfo/aicrapg.htm" |}
           "downloads/ex1_130104.xls" no_asc_column "ASC Fees North").
  - vm_compute. reflexivity.
  - vm_compute. reflexivity.
  - vm_compute. reflexivity.
  - cbn. tauto.
  - cbn. intros [H|[H|[H|[]]]]; discriminate H.
Defined.

(** X16. [scrape_and_store] builds the store handler only after the
    download and the cleaning: with a credential missing, a request whose
    download and cleaning go through is answered HTTP 500 with the text of
    the configuration error, after the browser work has been done. *)
Theorem credentials_are_checked_after_the_download {S} (W : World S) insert_method
        sys sys1 sys2 sys3 scraper file_path df :
  Scraper.init W sys = (sys1, Ok scraper) ->
  Scraper.download_excel_file W scraper true sys1 = (sys2, Ok file_path) ->
  process_file W file_path sys2 = (sys3, Ok df) ->
  credentials_missing W ->
  scrape_and_store W insert_method sys =
    (sys3, {| status_code := 500;
              body := PDict [ ("detail",
                               PDict [ ("error",
                                        PStr "Missing Supabase credentials in environment variables");
                                       ("message", PStr "Failed to scrape and store data") ]) ] |}).
Proof.
  intros H1 H2 H3 Hmiss. apply missing_guard in Hmiss.
  unfold scrape_and_store, handler, scrape_and_store_pipeline.
  unfold bind at 1. rewrite H1. unfold bind at 1. rewrite H2.
  unfold bind at 1. rewrite H3. unfold bind at 1.
  unfold Database.init. by rewrite Hmiss.
Qed.

Lemma credentials_are_checked_after_the_download_witness :
  scrape_and_store downloaded_no_credentials "bulk" boot =
    ((process_file downloaded_no_credentials "downloads/ex1_130104.xls"
        (Scraper.download_excel_file downloaded_no_credentials
           {| Scraper.download_dir := "downloads";
              Scraper.url := "https://www.nj.gov/dobi/pipinfo/aicrapg.htm" |} true
           (Scraper.init downloaded_no_credentials boot).1).1).1,
     {| status_code := 500;
        body := PDict [ ("detail",
                         PDict [ ("error",
                                  PStr "Missing Supabase credentials in environment variables");
                                 ("message", PStr "Failed to scrape and store data") ]) ] |}).
Proof.
  eapply (credentials_are_checked_after_the_download downloaded_no_credentials "bulk" boot
           (Scraper.init downloaded_no_credentials boot).1
           (Scraper.download_excel_file downloaded_no_credentials
              {| Scraper.download_dir := "downloads";
                 Scraper.url := "https://www.nj.gov/dobi/pipinfo/aicrapg.htm" |} true
              (Scraper.init downloaded_no_credentials boot).1).1
           _
           {| Scraper.download_dir := "downloads";
              Scraper.url := "https://www.nj.gov/dobi/pipinfo/aicrapg.htm" |}
           "downloads/ex1_130104.xls").
  - vm_compute. reflexivity.
  - vm_compute. reflexivity.
  - vm_compute. reflexivity.
  - left. left. reflexivity.
Defined.

(** A key that the dictionary lacks is added at its end. *)
Lemma dict_set_fresh k v d :
  ~ In k d.*1 -> dict_set k v d = (d ++ [(k, v)])%list.
Proof.
  induction d as [|[k' v'] d IH]; cbn; intros Hk; [done|].
  destruct (String.eqb_spec k' k) as [->|Hne].
  - exfalso. apply Hk. by left.
  - rewrite IH; [done|]. intros Hin. apply Hk. by right.
Qed.

Lemma dict_of_fresh items acc :
  NoDup (acc.*1 ++ items.*1) ->
  foldl (fun d kv => dict_set kv.1 kv.2 d) acc items = (acc ++ items)%list.
Proof.
  revert acc. induction items as [|[k v] items IH]; intros acc Hnd; cbn.
  - by rewrite app_nil_r.
  - cbn in Hnd. rewrite dict_set_fresh.
    + rewrite IH; [by rewrite <- app_assoc|].
      rewrite fmap_app. cbn. by rewrite <- app_assoc.
    + apply NoDup_app in Hnd as (_ & Hdis & _). intros Hin.
      apply (Hdis k); [by apply list_elem_of_In | by constructor].
Qed.

(** With every label once, a row dictionary lists the cells column by
    column. *)
Lemma row_to_py_distinct cols r :
  NoDup cols -> row_to_py cols r = PDict (zip cols (map cell_to_py r)).
Proof.
  intros Hnd. unfold row_to_py, dict_of. f_equal.
  rewrite dict_of_fresh; [done|]. cbn.
  apply (sublist_NoDup _ cols Hnd).
  clear Hnd. revert r. induction cols as [|c cols IH]; intros [|x r]; cbn.
  - done.
  - done.
  - apply sublist_nil_l.
  - by apply sublist_skip.
Qed.

(** A row of as many cells as there are columns can be rendered exactly
    when none of its cells is missing. *)
Lemma row_json_compliant cols r :
  length r = length cols ->
  forallb (fun kv : string * pyval => json_compliant kv.2) (zip cols (map cell_to_py r)) =
  forallb notna r.
Proof.
  revert r. induction cols as [|c cols IH]; intros [|x r] Hlen; cbn in *; try done.
  rewrite IH by lia. by destruct x.
Qed.

Lemma rows_json_compliant cols (rs : list (list cell)) :
  List.Forall (fun r => length r = length cols) rs ->
  forallb json_compliant (map (fun r => PDict (zip cols (map cell_to_py r))) rs) =
  forallb (forallb notna) rs.
Proof.
  induction 1 as [|r rs Hr _ IH]; [done|].
  cbn [map forallb]. rewrite IH. f_equal.
  cbn [json_compliant]. by apply row_json_compliant.
Qed.

Lemma labels_json_compliant (cols : list string) :
  forallb json_compliant (map (fun c : string => PStr c) cols) = true.
Proof. induction cols as [|c cols IH]; [done|]. cbn. exact IH. Qed.

(** When the download and the reading go through and the file can be
    removed, [test_download] answers with what FastAPI makes of the
    dictionary of the sheet. *)
Lemma test_download_answer {S} (W : World S)
      sys sys1 sys2 sys3 sys4 scraper file_path df :
  Scraper.init W sys = (sys1, Ok scraper) ->
  Scraper.download_excel_file W scraper true sys1 = (sys2, Ok file_path) ->
  read_excel W file_path sys2 = (sys3, Ok df) ->
  unlink_missing_ok W file_path sys3 = (sys4, Ok tt) ->
  test_download W sys = (sys4, returned (test_download_content df)).
Proof.
  intros H1 H2 H3 H4. unfold test_download, handler, test_download_pipeline.
  unfold bind at 1. rewrite H1. unfold bind at 1. rewrite H2.
  unfold bind at 1. rewrite H3. unfold bind at 1. by rewrite H4.
Qed.

(** X17. When the download and the reading go through and the file can be
    removed, and the sheet read has every label once and one cell per
    column in each row: if no cell of its first three rows is missing,
    [test_download] answers HTTP 200 with the number of rows of the sheet,
    its column labels, and as sample exactly the first three rows (all rows
    when there are fewer), each as a dictionary from label to cell; if a
    cell of those rows is missing, the dictionary the handler returns
    cannot be rendered as JSON and the answer is HTTP 500 with the plain
    text of a server error, not the detail of the [except] clause. *)
Theorem test_download_reports_the_sheet {S} (W : World S)
        sys sys1 sys2 sys3 sys4 scraper file_path df :
  Scraper.init W sys = (sys1, Ok scraper) ->
  Scraper.download_excel_file W scraper true sys1 = (sys2, Ok file_path) ->
  read_excel W file_path sys2 = (sys3, Ok df) ->
  unlink_missing_ok W file_path sys3 = (sys4, Ok tt) ->
  NoDup (columns df) ->
  List.Forall (fun r => length r = length (columns df)) (values df) ->
  test_download W sys =
    (sys4,
     if forallb (forallb notna) (take 3 (values df))
     then {| status_code := 200;
             body := PDict [ ("status", PStr "success");
                             ("rows", PInt (Z.of_nat (length (rows df))));
                             ("columns", PList (map (fun c : string => PStr c) (columns df)));
                             ("sample_data",
                              PList (map (fun r => PDict (zip (columns df) (map cell_to_py r)))
                                         (take 3 (values df)))) ] |}
     else {| status_code := 500; body := PStr "Internal Server Error" |}).
Proof.
  intros H1 H2 H3 H4 Hnd Hrect.
  rewrite (test_download_answer W _ _ _ _ _ _ _ _ H1 H2 H3 H4). f_equal.
  assert (Hhead : values (head 3 df) = take 3 (values df)).
  { unfold values, head. cbn [rows]. by rewrite fmap_take. }
  assert (Hsample : map (row_to_py (columns df)) (values (head 3 df)) =
                    map (fun r => PDict (zip (columns df) (map cell_to_py r)))
                        (take 3 (values df))).
  { rewrite Hhead. apply map_ext. intros r. by apply row_to_py_distinct. }
  assert (Hjson : forallb json_compliant
                    (map (fun r => PDict (zip (columns df) (map cell_to_py r)))
                         (take 3 (values df))) =
                  forallb (forallb notna) (take 3 (values df))).
  { apply rows_json_compliant. by apply Forall_take. }
  unfold returned, test_download_content. rewrite Hsample.
  cbn [json_compliant forallb snd]. rewrite labels_json_compliant, Hjson.
  cbn [andb]. rewrite andb_true_r. unfold len. reflexivity.
Qed.

Lemma test_download_reports_the_sheet_witness :
  test_download all_well boot =
    ((test_download all_well boot).1,
     {| status_code := 200;
        body := PDict [ ("status", PStr "success");
                        ("rows", PInt 3);
                        ("columns", PList [ PStr "CPT* HCPS"; PStr "Description";
                                            PStr "Physicians' Fees      North";
                                            PStr "ASC Fees North" ]);
                        ("sample_data",
                         PList (map (fun r => PDict (zip (columns three_rows)
                                                         (map cell_to_py r)))
                                    (values three_rows))) ] |}) /\
  test_download five_rows_world boot =
    ((test_download five_rows_world boot).1,
     {| status_code := 500; body := PStr "Internal Server Error" |}).
Proof.
  split.
  - eapply (test_download_reports_the_sheet all_well boot
             (Scraper.init all_well boot).1
             (Scraper.download_excel_file all_well
                {| Scraper.download_dir := "downloads";
                   Scraper.url := "https://www.nj.gov/dobi/pipinfo/aicrapg.htm" |} true
                (Scraper.init all_well boot).1).1
             _ (test_download all_well boot).1
             {| Scraper.download_dir := "downloads";
                Scraper.url := "https://www.nj.gov/dobi/pipinfo/aicrapg.htm" |}
             "downloads/ex1_130104.xls" three_rows).
    + vm_compute. reflexivity.
    + vm_compute. reflexivity.
    + vm_compute. reflexivity.
    + vm_compute. reflexivity.
    + repeat (apply NoDup_cons_2;
                [rewrite list_elem_of_In; cbn; intuition discriminate|]).
      apply NoDup_nil_2.
    + repeat (apply List.Forall_cons; [reflexivity|]). apply List.Forall_nil.
  - eapply (test_download_reports_the_sheet five_rows_world boot
             (Scraper.init five_rows_world boot).1
             (Scraper.download_excel_file five_rows_world
                {| Scraper.download_dir := "downloads";
                   Scraper.url := "https://www.nj.gov/dobi/pipinfo/aicrapg.htm" |} true
                (Scraper.init five_rows_world boot).1).1
             _ (test_download five_rows_world boot).1
             {| Scraper.download_dir := "downloads";
                Scraper.url := "https://www.nj.gov/dobi/pipinfo/aicrapg.htm" |}
             "downloads/ex1_130104.xls" five_rows).
    + vm_compute. reflexivity.
    + vm_compute. reflexivity.
    + vm_compute. reflexivity.
    + vm_compute. reflexivity.
    + repeat (apply NoDup_cons_2;
                [rewrite list_elem_of_In; cbn; intuition discriminate|]).
      apply NoDup_nil_2.
    + repeat (apply List.Forall_cons; [reflexivity|]). apply List.Forall_nil.
Defined.

(** X18. [test_supabase] holds no resource afterwards that it did not hold
    before, and makes no call, or one: the construction of the client. It
    answers 200 or 500. *)
Theorem test_supabase_makes_at_most_one_call {S} (W : World S) sys :
  held (test_supabase W sys).1 = held sys /\
  (trace (test_supabase W sys).1 = trace sys \/
   exists url key, trace (test_supabase W sys).1 = (trace sys ++ [CreateClient url key])%list) /\
  (status_code (test_supabase W sys).2 = 200 \/ status_code (test_supabase W sys).2 = 500).
Proof.
  unfold test_supabase, handler, test_supabase_pipeline, bind, Database.init.
  destruct (_ || _).
  - cbn. tauto.
  - unfold bind, external, ret.
    destruct (create_client W _ _ (ext sys)) as [s' [[]|e]]; cbn;
      (split; [done|]); (split; [right; by eauto | tauto]).
Qed.

(** Either way of inserting only adds calls to the trace. *)
Lemma insert_extends_the_trace {S} (W : World S) (one_by_one : bool) self records sys :
  exists l,
    trace ((if one_by_one
            then insert_records_one_by_one W self records
            else insert_records W self records) sys).1 = (trace sys ++ l)%list.
Proof.
  destruct one_by_one.
  - destruct (InsertProofs.insert_records_one_by_one_spec W self records sys)
      as (sys' & Hrun & _ & Htrace).
    rewrite Hrun. by eexists.
  - unfold insert_records, try_except, bind, table_insert_execute, external.
    destruct (insert_execute W _ _ (ext sys)) as [s' [resp|e]]; by eexists.
Qed.

(** X21. An HTTP 200 of [scrape_and_store] means the whole pipeline ran:
    when the download returned a file, a 200 answer implies that a store
    client was built and that, later, the downloaded file was removed. *)
Theorem http_200_means_the_file_was_removed {S} (W : World S) insert_method
        sys sys1 sys2 scraper file_path :
  Scraper.init W sys = (sys1, Ok scraper) ->
  Scraper.download_excel_file W scraper true sys1 = (sys2, Ok file_path) ->
  status_code (scrape_and_store W insert_method sys).2 = 200 ->
  exists before between after url key,
    trace (scrape_and_store W insert_method sys).1 =
      (before ++ [CreateClient url key] ++ between ++ [Unlink file_path] ++ after)%list.
Proof.
  intros H1 H2 H200.
  destruct (scrape_and_store W insert_method sys) as [sysF resp] eqn:E.
  cbn [fst snd] in *. revert E.
  unfold scrape_and_store, handler, scrape_and_store_pipeline.
  unfold bind at 1. rewrite H1. unfold bind at 1. rewrite H2.
  unfold bind at 1.
  destruct (process_file W file_path sys2) as [sys3 [df|e3]];
    [|intros [= <- <-]; discriminate H200].
  unfold bind at 1. unfold Database.init.
  destruct (_ || _); [intros [= <- <-]; discriminate H200|].
  unfold bind at 1. unfold external at 1.
  destruct (create_client W _ _ (ext sys3)) as [s4 [[]|e4]];
    [|intros [= <- <-]; discriminate H200].
  unfold ret at 1. unfold bind at 1.
  match goal with |- context [(if ?b then ?x else ?y) ?s0] =>
    destruct (insert_extends_the_trace W b
                {| supabase_url := default "" (getenv W "SUPABASE_URL");
                   supabase_key := default "" (getenv W "SUPABASE_KEY");
                   table_name := "test_cleaning" |}
                (to_dict_records df) s0) as (l & Hl);
    destruct ((if b then x else y) s0) as [sys5 [result|e5]];
      [|intros [= <- <-]; discriminate H200]
  end.
  cbn [fst trace] in Hl.
  unfold bind at 1. unfold unlink_missing_ok. unfold external at 1.
  destruct (unlink W file_path (ext sys5)) as [s6 [[]|e6]];
    [|intros [= <- <-]; discriminate H200].
  unfold bind, timestamp, utcnow. cbn [ext held trace].
  destruct (utcnow_isoformat W s6) as [s7 t]. unfold ret.
  intros [= <- <-]. cbn [trace]. rewrite Hl.
  exists (trace sys3), l, [UtcNow]. do 2 eexists.
  rewrite <- !app_assoc. reflexivity.
Qed.

Lemma http_200_means_the_file_was_removed_witness :
  exists before between after url key,
    trace (scrape_and_store all_well "bulk" boot).1 =
      (before ++ [CreateClient url key] ++ between ++
       [Unlink "downloads/ex1_130104.xls"] ++ after)%list.
Proof.
  eapply (http_200_means_the_file_was_removed all_well "bulk" boot
            (Scraper.init all_well boot).1 _
            {| Scraper.download_dir := "downloads";
               Scraper.url := "https://www.nj.gov/dobi/pipinfo/aicrapg.htm" |}
            "downloads/ex1_130104.xls").
  - vm_compute. reflexivity.
  - vm_compute. reflexivity.
  - vm_compute. reflexivity.
Defined.

End EndpointExtras.
